(** * CountMyLines: the line counter of [counter.py], embedded and verified

    The development follows [src/counter.py] and [src/errors.py]:

    - Python's [str] is a sequence of Unicode code points; the methods the
      counter calls on it ([strip], [startswith], [endswith], [splitlines])
      are written out in [Module Str];
    - [pathlib.Path] is a pure path (anchor and parts) with [name], [suffix]
      and [/], in [Module Pathlib];
    - the counts of a [FileData] are Python ints, hence [Z];
    - [LineCounter] methods mutate [self._fileDatas] and may raise: they
      live in a state-and-exception monad in which the state survives a
      raised exception, as the attributes of a Python object do;
    - of [src/cli.py], the functions that call the counter and print its
      results: [validate_settings], [count_lines], [print_table],
      [print_statistics] and [print_data]. *)

From Stdlib Require Import List ZArith NArith Bool Lia Floats.
From Stdlib Require Import String Ascii DecimalString.
Import ListNotations.

(** [length] is the length of a list throughout. *)
Abbreviation length := Datatypes.length.

(** ** Python strings *)

Module Str.

(** A character is its Unicode code point. *)
Definition char := N.
Definition str := list char.

(** String literals of the source, read as code points. *)
Fixpoint lit (s : String.string) : str :=
  match s with
  | String.EmptyString => []
  | String.String a s' => Ascii.N_of_ascii a :: lit s'
  end.
Arguments lit s%_string.

Definition eqb (s t : str) : bool :=
  if list_eq_dec N.eq_dec s t then true else false.

(** [str.isspace] on one character: the code points CPython lists in
    [_PyUnicode_IsWhitespace]. *)
Definition isspace (c : char) : bool :=
  ((9 <=? c) && (c <=? 13)            (* \t \n \v \f \r *)
   || (28 <=? c) && (c <=? 32)        (* FS GS RS US and the space *)
   || (c =? 133) || (c =? 160)        (* NEL, no-break space *)
   || (c =? 5760)                     (* U+1680 *)
   || (8192 <=? c) && (c <=? 8202)    (* U+2000 .. U+200A *)
   || (c =? 8232) || (c =? 8233)      (* U+2028, U+2029 *)
   || (c =? 8239) || (c =? 8287)      (* U+202F, U+205F *)
   || (c =? 12288))%N.                (* U+3000 *)

(** The line boundaries of [str.splitlines]
    ([_PyUnicode_IsLinebreak]). *)
Definition islinebreak (c : char) : bool :=
  ((10 <=? c) && (c <=? 13)           (* \n \v \f \r *)
   || (28 <=? c) && (c <=? 30)        (* FS GS RS *)
   || (c =? 133)                      (* NEL *)
   || (c =? 8232) || (c =? 8233))%N.  (* U+2028, U+2029 *)

Definition LF : char := 10%N.
Definition CR : char := 13%N.

Fixpoint lstrip (s : str) : str :=
  match s with
  | [] => []
  | c :: s' => if isspace c then lstrip s' else s
  end.

Definition rstrip (s : str) : str := rev (lstrip (rev s)).

(** [s.strip()] *)
Definition strip (s : str) : str := rstrip (lstrip s).

(** [s.startswith(prefix)] *)
Fixpoint startswith (s prefix : str) : bool :=
  match prefix, s with
  | [], _ => true
  | _ :: _, [] => false
  | p :: prefix', c :: s' => (c =? p)%N && startswith s' prefix'
  end.

(** [s.endswith(suffix)]: the last [len(suffix)] characters are [suffix]. *)
Definition endswith (s suffix : str) : bool :=
  (length suffix <=? length s)%nat
  && eqb (skipn (length s - length suffix) s) suffix.

(** [s.splitlines()]: [line] holds the characters of the current line read
    so far; a line ends at a line boundary ("\r\n" being one boundary) or at
    the end of the string, and nothing follows the last boundary when the
    string ends there. *)
Fixpoint splitlines_from (line : str) (s : str) : list str :=
  match s with
  | [] => match line with [] => [] | _ :: _ => [line] end
  | c :: s' =>
      if islinebreak c then
        line :: match s' with
                | c' :: s'' =>
                    if (c =? CR)%N && (c' =? LF)%N
                    then splitlines_from [] s''
                    else splitlines_from [] s'
                | [] => splitlines_from [] s'
                end
      else splitlines_from (line ++ [c]) s'
  end.

Definition splitlines (s : str) : list str := splitlines_from [] s.

End Str.

Abbreviation str := Str.str.
Abbreviation py := Str.lit.
Arguments Str.lit s%_string.

(** ** pathlib *)

Module Pathlib.

(** A pure path: the anchor (drive and root, [[]] for a relative path) and
    the parts below it. Two paths are equal when both agree, as for
    [PurePosixPath]. *)
Record Path := mkPath { anchor : str; parts : list str }.

Definition Path_eq_dec (p q : Path) : {p = q} + {p <> q}.
Proof.
  decide equality; apply (list_eq_dec (list_eq_dec N.eq_dec)) || apply (list_eq_dec N.eq_dec).
Defined.

Definition eqb (p q : Path) : bool := if Path_eq_dec p q then true else false.

(** [path.name]: the final component, [''] when there is none. *)
Definition name (p : Path) : str := last (parts p) [].

(** [path / entry] *)
Definition joinpath (p : Path) (entry : str) : Path :=
  mkPath (anchor p) (parts p ++ [entry]).

(** [s.rfind(c)]: the highest index of [c] in [s], [-1] when absent;
    [i] is the index of the head of [s], [found] the answer so far. *)
Fixpoint rfind_from (c : Str.char) (s : str) (i found : Z) : Z :=
  match s with
  | [] => found
  | x :: s' => rfind_from c s' (i + 1)%Z (if (x =? c)%N then i else found)
  end.

Definition rfind (s : str) (c : Str.char) : Z := rfind_from c s 0%Z (-1)%Z.

Definition dot : Str.char := 46%N.

(** [path.suffix]:
<<
    name = self.name
    i = name.rfind('.')
    if 0 < i < len(name) - 1: return name[i:]
    else: return ''
>> *)
Definition suffix (p : Path) : str :=
  let name := name p in
  let i := rfind name dot in
  if ((0 <? i) && (i <? Z.of_nat (length name) - 1))%Z
  then skipn (Z.to_nat i) name
  else [].

End Pathlib.

Abbreviation Path := Pathlib.Path.
Declare Scope path_scope.
Delimit Scope path_scope with path.
Infix "/" := Pathlib.joinpath : path_scope.

(** [x in xs] on Python lists of strings and of paths. *)
Definition str_in (x : str) (xs : list str) : bool := existsb (Str.eqb x) xs.
Definition path_in (x : Path) (xs : list Path) : bool := existsb (Pathlib.eqb x) xs.

(** ** errors.py and the exceptions the counter raises *)

Inductive exn : Type :=
| CommentNotClosedError (file : Path)
| FileNotFoundError (file : Path)
| OSError (file : Path)            (* any other failure of [open], [read] or [iterdir] *)
| ValueError (path : Path)
| TypeError (missing : list String.string)
| AssertionError.

(** The outcome of a call: the value returned or the exception raised. *)
Inductive result (A : Type) : Type :=
| Returns (a : A)
| Raises (e : exn).
Arguments Returns {A} a.
Arguments Raises {A} e.

(** ** counter.py: data *)

Inductive Detail := minimal | basic | full.

Definition PYTHON_FILE_EXTENSIONS : list str := [py ".py"].

Record Settings := mkSettings {
  path : Path;
  ignoreNames : list str;
  ignorePaths : list Path;
  recursive : bool;
  outputDetail : Detail
}.

Record FileData := mkFileData {
  file : Path;
  totalLines : Z;
  commentLines : Z;
  codeLines : Z;
  blankLines : Z
}.

(** *** [get_arbitrary_settings]

    A dataclass's generated [__init__] binds the positional arguments to the
    fields in declaration order and raises [TypeError] naming the fields left
    without a value (none of [Settings]'s fields has a default). The values
    are dynamically typed. *)

Inductive pyobj :=
| PyPath (p : Path)
| PyStrList (l : list str)
| PyPathList (l : list Path)
| PyBool (b : bool)
| PyStr (s : str).

Definition Settings_fields : list String.string :=
  ["path"; "ignoreNames"; "ignorePaths"; "recursive"; "outputDetail"]%string.

(** Binding [args] to the parameters [params]: too many positional arguments
    and missing ones both raise [TypeError]. *)
Definition dataclass_init (params : list String.string) (args : list pyobj)
  : result (list (String.string * pyobj)) :=
  if (length params <? length args)%nat then Raises (TypeError [])
  else match skipn (length args) params with
       | [] => Returns (combine params args)
       | missing => Raises (TypeError missing)
       end.

(** [cwd] is [Path(os.getcwd())]. *)
Definition get_arbitrary_settings (cwd : Path)
  : result (list (String.string * pyobj)) :=
  dataclass_init Settings_fields
    [ PyPath cwd;
      PyStrList [py "venv"; py ".git"; py ".env"; py ".vscode"; py ".idea";
                 py "__pycache__"];
      PyPathList [];
      PyBool true ].

(** *** [_zero_safe_division] and the report

    [int_truediv n d] is Python's [n / d] on ints for [d <> 0]: the quotient
    rounded to a binary64 float. The counter only ever reaches it with a
    non-zero divisor. *)

Inductive Printed :=
| Text (line : string)
| FileLine (file : Path)
| CountLine (label : string) (n : Z)
| RatioLine (label : string) (percent : float).

Section Report.

Variable int_truediv : Z -> Z -> float.

Definition _zero_safe_division (numerator denominator : Z) : float :=
  if (denominator =? 0)%Z then 0%float
  else int_truediv numerator denominator.

(** [sum([f(file) for file in fileDatas])] *)
Definition sum (xs : list Z) : Z := fold_left Z.add xs 0%Z.

Definition ratio_percent (numerator denominator : Z) : float :=
  (_zero_safe_division numerator denominator * 100)%float.

Definition print_one (fileData : FileData) : list Printed :=
  [ FileLine fileData.(file);
    CountLine "total lines" fileData.(totalLines);
    CountLine "comment lines" fileData.(commentLines);
    CountLine "code lines" fileData.(codeLines);
    CountLine "blank lines" fileData.(blankLines);
    RatioLine "blank-code ratio" (ratio_percent fileData.(blankLines) fileData.(codeLines));
    RatioLine "comment-code ratio" (ratio_percent fileData.(commentLines) fileData.(codeLines)) ].

(** Lines 202-214 of [print_file_data]: the totals and their ratios. *)
Definition print_totals (fileDatas : list FileData) : list Printed :=
  let totalLines := sum (map totalLines fileDatas) in
  let commentLines := sum (map commentLines fileDatas) in
  let codeLines := sum (map codeLines fileDatas) in
  let blankLines := sum (map blankLines fileDatas) in
  [ Text "Total:";
    CountLine "total lines" totalLines;
    CountLine "comment lines" commentLines;
    CountLine "code lines" codeLines;
    CountLine "blank lines" blankLines;
    RatioLine "blank-code ratio" (ratio_percent blankLines codeLines);
    RatioLine "comment-code ratio" (ratio_percent commentLines codeLines) ].

(** [print_file_data], as the sequence of what it prints. *)
Definition print_file_data (fileDatas : list FileData) : list Printed :=
  if (length fileDatas =? 0)%nat then [Text "No files to print."]
  else flat_map print_one fileDatas ++ print_totals fileDatas.

End Report.

(** ** The [LineCounter] object and its methods

    A method is a function of [self]; it gives back the outcome and [self] as
    the call left it, whether it returned or raised. *)

Record LineCounter := mkLineCounter {
  _settings : Settings;
  _fileDatas : list FileData
}.

(** [LineCounter.__init__] *)
Definition LineCounter_init (settings : Settings) : LineCounter :=
  mkLineCounter settings [].

Definition M (A : Type) : Type := LineCounter -> result A * LineCounter.

Definition ret {A} (a : A) : M A := fun self => (Returns a, self).
Definition raise {A} (e : exn) : M A := fun self => (Raises e, self).
Definition bind {A B} (m : M A) (k : A -> M B) : M B :=
  fun self =>
    match m self with
    | (Returns a, self') => k a self'
    | (Raises e, self') => (Raises e, self')
    end.
(** A call that does not touch [self]. *)
Definition call {A} (r : result A) : M A := fun self => (r, self).
(** [self._fileDatas.append(fileData)] *)
Definition fileDatas_append (fileData : FileData) : M unit :=
  fun self =>
    (Returns tt, mkLineCounter self.(_settings) (self.(_fileDatas) ++ [fileData])).

Declare Scope py_scope.
Delimit Scope py_scope with py.
Notation "x <- m ;; k" := (bind m (fun x => k))
  (at level 100, m at next level, right associativity) : py_scope.
Notation "m ;; k" := (bind m (fun _ => k))
  (at level 100, right associativity) : py_scope.

(** What the methods see of the file system: [file.exists()] and the outcome of
    [open(file, "r")] followed by [f.read()], that is the decoded text with
    the newlines of the file already translated, or the exception raised.
    The two are independent: a file may vanish between the check and the
    read. *)
Record FileSystem := mkFileSystem {
  path_exists : Path -> bool;
  open_read : Path -> result str
}.

(** *** [count_file] *)

(** The two triple-quote delimiters, three apostrophes and three double
    quotes (code point 34). *)
Definition triple_single : str := py "'''".
Definition triple_double : str := [34; 34; 34]%N.

Definition add_comment (d : FileData) : FileData :=
  mkFileData d.(file) d.(totalLines) (d.(commentLines) + 1) d.(codeLines) d.(blankLines).
Definition add_code (d : FileData) : FileData :=
  mkFileData d.(file) d.(totalLines) d.(commentLines) (d.(codeLines) + 1) d.(blankLines).
Definition add_blank (d : FileData) : FileData :=
  mkFileData d.(file) d.(totalLines) d.(commentLines) d.(codeLines) (d.(blankLines) + 1).
Definition add_total (d : FileData) : FileData :=
  mkFileData d.(file) (d.(totalLines) + 1) d.(commentLines) d.(codeLines) d.(blankLines).

(** The body of [for line in lines], on the two variables it updates:
    [fileData] and [inMultiLineComment]. *)
Definition count_line (vars : FileData * bool) (line : str) : FileData * bool :=
  let '(fileData, inMultiLineComment) := vars in
  let fileData := add_total fileData in
  let strippedLine := Str.strip line in
  if Str.startswith strippedLine (py "#") then
    (add_comment fileData, inMultiLineComment)
  else if Str.startswith strippedLine triple_single
          || Str.startswith strippedLine triple_double then
    if Str.endswith strippedLine triple_single
       || Str.endswith strippedLine triple_double then
      (add_comment fileData, inMultiLineComment)
    else
      (add_comment fileData, negb inMultiLineComment)
  else if inMultiLineComment then
    (add_comment fileData, inMultiLineComment)
  else if Str.eqb strippedLine [] then
    (add_blank fileData, inMultiLineComment)
  else
    (add_code fileData, inMultiLineComment).

(** The loop over the lines, from [FileData(file, 0, 0, 0, 0)] and
    [inMultiLineComment = False]. *)
Definition count_lines (file : Path) (lines : list str) : FileData * bool :=
  fold_left count_line lines (mkFileData file 0 0 0 0, false).

Definition count_file (fs : FileSystem) (file : Path) : M unit :=
  (content <- call (open_read fs file) ;;
   let lines := Str.splitlines content in
   let '(fileData, inMultiLineComment) := count_lines file lines in
   if inMultiLineComment then raise (CommentNotClosedError file)
   else if negb (fileData.(totalLines)
                 =? fileData.(commentLines) + fileData.(codeLines)
                    + fileData.(blankLines))%Z
   then raise AssertionError
   else fileDatas_append fileData)%py.

(** *** [count_files] *)

Fixpoint count_files (fs : FileSystem) (files : list Path) : M unit :=
  match files with
  | [] => ret tt
  | file :: files' =>
      if negb (path_exists fs file) then raise (FileNotFoundError file)
      else (count_file fs file ;; count_files fs files')%py
  end.

(** *** [get_py_files]

    What the walk meets below a path: a regular file, a directory with its
    entries in [iterdir] order, or something that is neither (a socket, a
    dangling link, nothing at all). *)

Local Unset Elimination Schemes.
Inductive Node :=
| RegularFile
| Directory (entries : list (str * Node))
| Neither.
Local Set Elimination Schemes.

Section Discovery.

Variable self : LineCounter.

(** [for file in path.iterdir()], with [files] the list built so far;
    [recurse] stands for the recursive call [self.get_py_files]. *)
Definition iterdir_loop (recurse : Path -> Node -> result (list Path))
    (path : Path) : list (str * Node) -> list Path -> result (list Path) :=
  fix iterdir (entries : list (str * Node)) (files : list Path)
    {struct entries} : result (list Path) :=
    match entries with
    | [] => Returns files
    | (entry, child) :: entries' =>
        let file := (path / entry)%path in
        match child with
        | Directory _ =>
            if str_in (Pathlib.name file) self.(_settings).(ignoreNames)
            then iterdir entries' files
            else if path_in file self.(_settings).(ignorePaths)
            then iterdir entries' files
            else if negb self.(_settings).(recursive)
            then iterdir entries' files
            else match recurse file child with
                 | Returns found => iterdir entries' (files ++ found)
                 | Raises e => Raises e
                 end
        | RegularFile =>
            if negb (str_in (Pathlib.suffix file) PYTHON_FILE_EXTENSIONS)
            then iterdir entries' files
            else if str_in (Pathlib.name file) self.(_settings).(ignoreNames)
            then iterdir entries' files
            else if path_in file self.(_settings).(ignorePaths)
            then iterdir entries' files
            else iterdir entries' (files ++ [file])
        | Neither => iterdir entries' files
        end
    end.

Fixpoint get_py_files (path : Path) (node : Node) {struct node}
  : result (list Path) :=
  match node with
  | RegularFile =>
      if str_in (Pathlib.suffix path) PYTHON_FILE_EXTENSIONS
      then Returns [path]
      else Raises (ValueError path)
  | Neither => Raises (OSError path)      (* [path.iterdir()] fails *)
  | Directory entries => iterdir_loop get_py_files path entries []
  end.

End Discovery.

(** ** cli.py

    The functions of the command line that call the counter. What they
    print besides the report is kept as a list of notices, one for each
    [print] call with a message. *)

Inductive Notice :=
| PathMissing (p : Path)            (* ERROR: Path '...' does not exist. *)
| IgnorePathMissing (p : Path)      (* ERROR: Path in ignore paths ... *)
| InvalidDetail (d : Detail)        (* ERROR: Invalid output detail ... *)
| Counting (p : Path)               (* Counting lines in '...'... *)
| NotDirectoryOrPython (p : Path)   (* ERROR: Path ... is not a directory ... *)
| CouldNotOpen (file : Path)        (* ERROR: Couldn't open file ... *)
| InvalidCode (file : Path)         (* ERROR: .py file ... contains invalid code *)
| Done.                             (* Done! *)

(** *** [validate_settings] *)




(** *** [count_lines] of cli.py

    [root] is what the file system holds at [settings.path]. The call returns
    the [LineCounter] or [None]; an exception that no [except] clause names
    leaves the function. *)

Definition cli_count_lines (fs : FileSystem) (root : Node) (settings : Settings)
  : result (option LineCounter) * list Notice :=
  let lineCounter := LineCounter_init settings in
  match get_py_files lineCounter settings.(path) root with
  | Raises (ValueError _) =>
      (Returns None, [Counting settings.(path);
                      NotDirectoryOrPython settings.(path)])
  | Raises e => (Raises e, [Counting settings.(path)])
  | Returns files =>
      match count_files fs files lineCounter with
      | (Raises (FileNotFoundError f), _) =>
          (Returns None, [Counting settings.(path); CouldNotOpen f])
      | (Raises (CommentNotClosedError f), _) =>
          (Returns None, [Counting settings.(path); InvalidCode f])
      | (Raises e, _) => (Raises e, [Counting settings.(path)])
      | (Returns _, lineCounter') =>
          (Returns (Some lineCounter'), [Counting settings.(path); Done])
      end
  end.

(** *** [print_table] *)

(** [str(n)] for an int. *)
Definition str_of_int (n : Z) : str :=
  py (DecimalString.NilZero.string_of_int (Z.to_int n)).

Definition space : Str.char := 32%N.
Definition underscore : Str.char := 95%N.

(** [s.ljust(width)] *)
Definition ljust (s : str) (width : nat) : str :=
  s ++ repeat space (width - length s).

(** The text that closes every cell. *)
Definition cell_end : str := py "  |  ".

Definition header : list str :=
  [py "file"; py "lines"; py "comments"; py "code"; py "blank"].

Definition table_row (fileData : FileData) : list str :=
  [ Pathlib.name fileData.(file);
    str_of_int fileData.(totalLines);
    str_of_int fileData.(commentLines);
    str_of_int fileData.(codeLines);
    str_of_int fileData.(blankLines) ].

(** [max([len(row[i]) for row in rows] + [len(head)])]; the list is never
    empty, and [row[i]] is always within the five cells of a row. *)
Definition longestRowLength (rows : list (list str)) (i : nat) (head : str)
  : nat :=
  list_max (map (fun row => length (nth i row [])) rows ++ [length head]).

(** [for i, head in enumerate(header)], from index [i] on. *)
Fixpoint header_loop (rows : list (list str)) (i : nat) (heads : list str)
    (string paddingString : str) : str * str :=
  match heads with
  | [] => (string, paddingString)
  | head :: heads' =>
      let width := longestRowLength rows i head in
      header_loop rows (S i) heads'
        (string ++ ljust head width ++ cell_end)
        (paddingString ++ repeat space width ++ cell_end)
  end.

(** [for i, cell in enumerate(row)], from index [i] on. *)
Fixpoint row_loop (rows : list (list str)) (i : nat) (cells : list str)
    (string : str) : str :=
  match cells with
  | [] => string
  | cell :: cells' =>
      let width := longestRowLength rows i (nth i header []) in
      row_loop rows (S i) cells' (string ++ ljust cell width ++ cell_end)
  end.

(** The lines that [print_table] prints. *)
Definition print_table (fileDatas : list FileData) : list str :=
  let rows := map table_row fileDatas in
  let '(string, paddingString) := header_loop rows 0 header [] [] in
  [ [];
    repeat underscore (length (Str.rstrip string));
    string;
    paddingString ]
  ++ map (fun row => row_loop rows 0 row []) rows.

(** *** [print_statistics] and [print_data] *)

Inductive ArithmeticError := ZeroDivisionError.

(** What [print_data] prints: items of the report and lines of the table. *)
Inductive Output :=
| Report (item : Printed)
| TableLine (line : str).

Section CliReport.

Variable int_truediv : Z -> Z -> float.

(** [n / d] on ints. *)
Definition truediv (n d : Z) : ArithmeticError + float :=
  if (d =? 0)%Z then inl ZeroDivisionError else inr (int_truediv n d).

(** The lines printed, and the exception that ended the call if one did. *)
Definition print_statistics (fileDatas : list FileData)
  : list Printed * option ArithmeticError :=
  let totalLines := sum (map totalLines fileDatas) in
  let totalComments := sum (map commentLines fileDatas) in
  let totalCode := sum (map codeLines fileDatas) in
  let totalBlank := sum (map blankLines fileDatas) in
  let files := Z.of_nat (length fileDatas) in
  match truediv totalLines files with
  | inl e => ([], Some e)
  | inr averageLines =>
  match truediv totalComments files with
  | inl e => ([], Some e)
  | inr averageComments =>
  match truediv totalCode files with
  | inl e => ([], Some e)
  | inr averageCode =>
  match truediv totalBlank files with
  | inl e => ([], Some e)
  | inr averageBlank =>
      let averages :=
        [ CountLine "average per file, files" files;
          RatioLine "lines" averageLines;
          RatioLine "comments" averageComments;
          RatioLine "code" averageCode;
          RatioLine "blank lines" averageBlank;
          Text ""; Text "" ] in
      match truediv totalBlank totalLines with
      | inl e => (averages, Some e)
      | inr blank =>
      match truediv totalComments totalLines with
      | inl e =>
          (averages ++ [RatioLine "blank percent" (blank * 100)%float], Some e)
      | inr comment =>
      match truediv totalCode totalLines with
      | inl e =>
          (averages ++ [RatioLine "blank percent" (blank * 100)%float;
                        RatioLine "comment percent" (comment * 100)%float],
           Some e)
      | inr code =>
          (averages ++ [RatioLine "blank percent" (blank * 100)%float;
                        RatioLine "comment percent" (comment * 100)%float;
                        RatioLine "code percent" (code * 100)%float;
                        Text ""],
           None)
      end end end
  end end end end.

Definition print_data (lineCounter : LineCounter)
  : list Output * option ArithmeticError :=
  let fileDatas := lineCounter.(_fileDatas) in
  let totalLines := sum (map totalLines fileDatas) in
  let totalComments := sum (map commentLines fileDatas) in
  let totalCode := sum (map codeLines fileDatas) in
  let totalBlank := sum (map blankLines fileDatas) in
  let overall :=
    map Report
      [ Text ""; Text "overall:";
        CountLine "files counted" (Z.of_nat (length fileDatas));
        CountLine "total lines" totalLines;
        CountLine "comments" totalComments;
        CountLine "code" totalCode;
        CountLine "blank lines" totalBlank ] in
  match lineCounter.(_settings).(outputDetail) with
  | minimal => (overall, None)
  | basic =>
      (overall ++ map TableLine (print_table fileDatas) ++ [Report (Text "")],
       None)
  | full =>
      let '(statistics, raised) := print_statistics fileDatas in
      (overall ++ map TableLine (print_table fileDatas) ++ [Report (Text "")]
       ++ map Report statistics,
       raised)
  end.

End CliReport.

(** ** The specification's vocabulary *)

(** *** Classification of one line (specification, section 4.2)

    Each line falls in one of three classes. [classify] follows the five
    numbered steps of the specification on the stripped line and gives the
    class together with the next value of [inMultiLineComment]. *)

Inductive LineKind := Comment | Code | Blank.

Definition starts_triple (stripped : str) : bool :=
  Str.startswith stripped triple_single || Str.startswith stripped triple_double.

Definition ends_triple (stripped : str) : bool :=
  Str.endswith stripped triple_single || Str.endswith stripped triple_double.

Definition classify (inMultiLineComment : bool) (stripped : str)
  : LineKind * bool :=
  if Str.startswith stripped (py "#") then
    (Comment, inMultiLineComment)                                  (* step 1 *)
  else if starts_triple stripped then                              (* step 2 *)
    if ends_triple stripped then (Comment, inMultiLineComment)
    else (Comment, negb inMultiLineComment)
  else if inMultiLineComment then (Comment, inMultiLineComment)    (* step 3 *)
  else match stripped with
       | [] => (Blank, inMultiLineComment)                         (* step 4 *)
       | _ :: _ => (Code, inMultiLineComment)                      (* step 5 *)
       end.

(** The classes of the lines of a file in order, and the state after the
    last line. *)
Fixpoint classify_all (inMultiLineComment : bool) (lines : list str)
  : list LineKind * bool :=
  match lines with
  | [] => ([], inMultiLineComment)
  | line :: lines' =>
      let '(kind, state) := classify inMultiLineComment (Str.strip line) in
      let '(kinds, final) := classify_all state lines' in
      (kind :: kinds, final)
  end.

Definition LineKind_eqb (a b : LineKind) : bool :=
  match a, b with
  | Comment, Comment | Code, Code | Blank, Blank => true
  | _, _ => false
  end.

(** How many lines of the file fell in class [kind]. *)
Definition tally (kind : LineKind) (kinds : list LineKind) : Z :=
  Z.of_nat (length (filter (LineKind_eqb kind) kinds)).

(** *** Terminated lines

    A line terminator is one boundary of [splitlines]: a single line-break
    character or the pair CR LF. A text made of terminated lines is the
    concatenation of each line followed by its terminator. *)

Definition is_terminator (t : str) : bool :=
  match t with
  | [c] => Str.islinebreak c
  | [c; d] => (c =? Str.CR)%N && (d =? Str.LF)%N
  | _ => false
  end.

Definition break_free (line : str) : bool :=
  forallb (fun c => negb (Str.islinebreak c)) line.

Definition terminated_line (lt : str * str) : bool :=
  break_free (fst lt) && is_terminator (snd lt).

Definition join_terminated (lts : list (str * str)) : str :=
  flat_map (fun lt => fst lt ++ snd lt) lts.

(** A lone CR that ends one line must not be followed at once by an LF (one
    that ends an empty next line): the two characters would read as the
    single boundary CR LF. *)
Definition starts_LF (s : str) : bool :=
  match s with
  | d :: _ => (d =? Str.LF)%N
  | [] => false
  end.

Fixpoint crlf_apart (lts : list (str * str)) : bool :=
  match lts with
  | [] => true
  | (_, t) :: lts' =>
      negb (Str.eqb t [Str.CR] && starts_LF (join_terminated lts'))
      && crlf_apart lts'
  end.

(** The content ends in a line terminator: its last character is a line
    boundary. *)
Fixpoint ends_in_break (content : str) : bool :=
  match content with
  | [] => false
  | [c] => Str.islinebreak c
  | _ :: content' => ends_in_break content'
  end.

(** The lines of a text, each with the terminator that follows it in the
    text ([[]] for a last line that has none); [line] is the part of the
    current line already read. *)
Fixpoint lines_with_ends (line : str) (s : str) : list (str * str) :=
  match s with
  | [] => match line with [] => [] | _ :: _ => [(line, [])] end
  | c :: s' =>
      if Str.islinebreak c then
        match s' with
        | c' :: s'' =>
            if (c =? Str.CR)%N && (c' =? Str.LF)%N
            then (line, [c; c']) :: lines_with_ends [] s''
            else (line, [c]) :: lines_with_ends [] s'
        | [] => (line, [c]) :: lines_with_ends [] s'
        end
      else lines_with_ends (line ++ [c]) s'
  end.

(** *** Discovery: a path the settings admit *)

Definition admitted (self : LineCounter) (p : Path) : Prop :=
  str_in (Pathlib.name p) self.(_settings).(ignoreNames) = false
  /\ path_in p self.(_settings).(ignorePaths) = false
  /\ str_in (Pathlib.suffix p) PYTHON_FILE_EXTENSIONS = true.

(** Discovery never returns an excluded path or one with another extension,
    whatever the root is. *)
Definition discovery_never_returns_excluded : Prop :=
  forall (self : LineCounter) (path : Path) (node : Node) (files : list Path),
    get_py_files self path node = Returns files ->
    Forall (admitted self) files.

(** *** Batch counting: nothing of a failed batch is kept *)

Definition failed_batch_keeps_no_record : Prop :=
  forall (fs : FileSystem) (files : list Path) (self self' : LineCounter) (e : exn),
    count_files fs files self = (Raises e, self') ->
    self'.(_fileDatas) = self.(_fileDatas).

(** *** Toggling lines

    A line moves [inMultiLineComment] when its stripped form starts with a
    triple-quote delimiter and does not end with one. *)

Definition toggles (line : str) : bool :=
  starts_triple (Str.strip line) && negb (ends_triple (Str.strip line)).

(** *** Records and files that can be counted *)

Definition record_ok (R : FileData) : Prop :=
  (R.(totalLines) = R.(commentLines) + R.(codeLines) + R.(blankLines))%Z
  /\ (0 <= R.(totalLines))%Z /\ (0 <= R.(commentLines))%Z
  /\ (0 <= R.(codeLines))%Z /\ (0 <= R.(blankLines))%Z.

(** The file exists, can be read, and leaves no block open. *)
Definition countable (fs : FileSystem) (f : Path) : Prop :=
  path_exists fs f = true
  /\ exists content,
       open_read fs f = Returns content
       /\ snd (count_lines f (Str.splitlines content)) = false.

(** The record that the loop builds from what the file system holds for
    [f]. *)
Definition record_of (fs : FileSystem) (f : Path) : FileData :=
  match open_read fs f with
  | Returns content => fst (count_lines f (Str.splitlines content))
  | Raises _ => mkFileData f 0 0 0 0
  end.

(** *** What discovery is to find

    [found self path entries file]: [file] is a regular file with a target
    extension that the settings do not exclude, either an entry of the
    directory [path] or, when the walk is recursive, reached through
    subdirectories that the settings do not exclude. *)

Inductive found (self : LineCounter)
  : Path -> list (str * Node) -> Path -> Prop :=
| found_here (path : Path) (entries : list (str * Node)) (entry : str) :
    In (entry, RegularFile) entries ->
    admitted self (path / entry)%path ->
    found self path entries (path / entry)%path
| found_below (path : Path) (entries : list (str * Node)) (entry : str)
    (sub : list (str * Node)) (file : Path) :
    In (entry, Directory sub) entries ->
    str_in (Pathlib.name (path / entry)%path) self.(_settings).(ignoreNames)
    = false ->
    path_in (path / entry)%path self.(_settings).(ignorePaths) = false ->
    self.(_settings).(recursive) = true ->
    found self (path / entry)%path sub file ->
    found self path entries file.

(** In an actual directory no two entries bear the same name, at any
    depth. *)
Local Unset Elimination Schemes.
Inductive distinct_names : Node -> Prop :=
| distinct_file : distinct_names RegularFile
| distinct_neither : distinct_names Neither
| distinct_directory (entries : list (str * Node)) :
    NoDup (map fst entries) ->
    Forall (fun entry => distinct_names (snd entry)) entries ->
    distinct_names (Directory entries).

Local Set Elimination Schemes.

(** The three checks that a regular file passes, as one boolean. *)
Definition admittedb (self : LineCounter) (p : Path) : bool :=
  str_in (Pathlib.suffix p) PYTHON_FILE_EXTENSIONS
  && negb (str_in (Pathlib.name p) self.(_settings).(ignoreNames))
  && negb (path_in p self.(_settings).(ignorePaths)).

(** The regular files among the entries of [path] that pass the checks, in
    directory order. *)
Definition direct_files (self : LineCounter) (path : Path)
    (entries : list (str * Node)) : list Path :=
  flat_map (fun entry =>
              match snd entry with
              | RegularFile =>
                  if admittedb self (path / fst entry)%path
                  then [(path / fst entry)%path] else []
              | Directory _ | Neither => []
              end) entries.

(** ** Concrete files used in the examples below *)

Definition a_py : Path := Pathlib.mkPath [] [py "a.py"].
Definition b_py : Path := Pathlib.mkPath [] [py "b.py"].

(** A file system holding [a.py], whose content is the line [x = 1], and
    nothing else. *)
Definition only_a_py : FileSystem :=
  mkFileSystem
    (fun p => Pathlib.eqb p a_py)
    (fun p => if Pathlib.eqb p a_py then Returns (py "x = 1")
              else Raises (FileNotFoundError p)).

(** A file system in which [a.py] holds the one-line docstring
    ['''docstring'''] followed by a newline. *)
Definition docstring_fs : FileSystem :=
  mkFileSystem
    (fun p => Pathlib.eqb p a_py)
    (fun p => if Pathlib.eqb p a_py then Returns (py "'''docstring'''" ++ [Str.LF])
              else Raises (FileNotFoundError p)).

(** A file system in which [a.py] opens a block that it never closes. *)
Definition unclosed_fs : FileSystem :=
  mkFileSystem
    (fun p => Pathlib.eqb p a_py)
    (fun p => if Pathlib.eqb p a_py
              then Returns (py "'''opened" ++ [Str.LF] ++ py "inside" ++ [Str.LF])
              else Raises (FileNotFoundError p)).

Definition default_settings (root : Path) : Settings :=
  mkSettings root
    [py "venv"; py ".git"; py ".env"; py ".vscode"; py ".idea"; py "__pycache__"]
    [] true basic.

(** A project directory: [a.py], a virtual environment holding [b.py], and a
    package holding [c.py] and [notes.txt]. *)
Definition project : Path := Pathlib.mkPath (py "/") [py "project"].

Definition project_tree : Node :=
  Directory
    [ (py "a.py", RegularFile);
      (py "venv", Directory [(py "b.py", RegularFile)]);
      (py "pkg", Directory [(py "c.py", RegularFile);
                            (py "notes.txt", RegularFile)]) ].

(** Three terminated lines, the last one empty: LF, CR LF and LF. *)
Definition three_lines : list (str * str) :=
  [ (py "# comment", [Str.LF]);
    (py "x = 1", [Str.CR; Str.LF]);
    ([], [Str.LF]) ].

(** The entries of [project_tree]. *)
Definition project_entries : list (str * Node) :=
  [ (py "a.py", RegularFile);
    (py "venv", Directory [(py "b.py", RegularFile)]);
    (py "pkg", Directory [(py "c.py", RegularFile);
                          (py "notes.txt", RegularFile)]) ].

(** * Properties *)

(** ** Python strings *)

Lemma Str_eqb_eq (s t : str) : Str.eqb s t = true <-> s = t.
Proof.
  unfold Str.eqb. destruct (list_eq_dec N.eq_dec s t); split; congruence.
Qed.

Lemma Str_eqb_nil (s : str) :
  Str.eqb s [] = match s with [] => true | _ :: _ => false end.
Proof. destruct s; reflexivity. Qed.

Lemma Pathlib_eqb_eq (p q : Path) : Pathlib.eqb p q = true <-> p = q.
Proof.
  unfold Pathlib.eqb. destruct (Pathlib.Path_eq_dec p q); split; congruence.
Qed.

Lemma Pathlib_eqb_refl (p : Path) : Pathlib.eqb p p = true.
Proof. now apply Pathlib_eqb_eq. Qed.

(** ** The classifier loop *)

Lemma tally_cons (k k' : LineKind) (ks : list LineKind) :
  tally k (k' :: ks) = ((if LineKind_eqb k k' then 1 else 0) + tally k ks)%Z.
Proof.
  unfold tally. simpl. destruct (LineKind_eqb k k'); simpl length; lia.
Qed.

(** One turn of the loop counts the line in [totalLines] and in the counter
    of the class that [classify] gives it, and moves the state as [classify]
    says. *)
Lemma count_line_classify (fileData : FileData) (inMultiLineComment : bool)
    (line : str) :
  count_line (fileData, inMultiLineComment) line
  = (match fst (classify inMultiLineComment (Str.strip line)) with
     | Comment => add_comment (add_total fileData)
     | Code => add_code (add_total fileData)
     | Blank => add_blank (add_total fileData)
     end,
     snd (classify inMultiLineComment (Str.strip line))).
Proof.
  unfold count_line, classify, starts_triple, ends_triple.
  rewrite Str_eqb_nil.
  destruct (Str.startswith (Str.strip line) (py "#")); [reflexivity|].
  destruct (Str.startswith (Str.strip line) triple_single
            || Str.startswith (Str.strip line) triple_double).
  - destruct (Str.endswith (Str.strip line) triple_single
              || Str.endswith (Str.strip line) triple_double); reflexivity.
  - destruct inMultiLineComment; [reflexivity|].
    destruct (Str.strip line); reflexivity.
Qed.

(** The loop from any starting values of its two variables. *)
Lemma fold_count_line (lines : list str) :
  forall (fileData : FileData) (inMultiLineComment : bool),
    fold_left count_line lines (fileData, inMultiLineComment)
    = (mkFileData fileData.(file)
         (fileData.(totalLines) + Z.of_nat (length lines))
         (fileData.(commentLines)
          + tally Comment (fst (classify_all inMultiLineComment lines)))
         (fileData.(codeLines)
          + tally Code (fst (classify_all inMultiLineComment lines)))
         (fileData.(blankLines)
          + tally Blank (fst (classify_all inMultiLineComment lines))),
       snd (classify_all inMultiLineComment lines)).
Proof.
  induction lines as [|line lines IH]; intros fileData inMultiLineComment.
  - destruct fileData; simpl. unfold tally; simpl. now rewrite !Z.add_0_r.
  - cbn [fold_left classify_all]. rewrite count_line_classify.
    destruct (classify inMultiLineComment (Str.strip line)) as [kind state].
    cbn [fst snd]. rewrite IH.
    destruct (classify_all state lines) as [kinds final].
    cbn [fst snd]. rewrite !tally_cons.
    replace (Z.of_nat (length (line :: lines)))
      with (1 + Z.of_nat (length lines))%Z by (simpl length; lia).
    destruct fileData as [f t c o b].
    destruct kind; cbn [add_comment add_code add_blank add_total
      file totalLines commentLines codeLines blankLines LineKind_eqb];
      f_equal; f_equal; lia.
Qed.

Lemma classify_all_length (lines : list str) :
  forall inMultiLineComment,
    length (fst (classify_all inMultiLineComment lines)) = length lines.
Proof.
  induction lines as [|line lines IH]; intros b; [reflexivity|].
  cbn [classify_all].
  destruct (classify b (Str.strip line)) as [kind state].
  specialize (IH state).
  destruct (classify_all state lines) as [kinds final].
  simpl in *. now rewrite IH.
Qed.

(** The three tallies share out the lines. *)
Lemma tally_partition (kinds : list LineKind) :
  (tally Comment kinds + tally Code kinds + tally Blank kinds
   = Z.of_nat (length kinds))%Z.
Proof.
  induction kinds as [|k kinds IH]; [reflexivity|].
  rewrite !tally_cons.
  replace (Z.of_nat (length (k :: kinds)))
    with (1 + Z.of_nat (length kinds))%Z by (simpl length; lia).
  destruct k; cbn [LineKind_eqb]; lia.
Qed.

Lemma tally_nonneg (kind : LineKind) (kinds : list LineKind) :
  (0 <= tally kind kinds)%Z.
Proof. unfold tally. lia. Qed.

(** What [count_lines] builds for a file, in closed form. *)
Lemma count_lines_closed_form (file : Path) (lines : list str) :
  count_lines file lines
  = (mkFileData file (Z.of_nat (length lines))
       (tally Comment (fst (classify_all false lines)))
       (tally Code (fst (classify_all false lines)))
       (tally Blank (fst (classify_all false lines))),
     snd (classify_all false lines)).
Proof. unfold count_lines. now rewrite fold_count_line. Qed.

(** The record of [count_lines] keeps the accounting identity, with counts
    that are not negative. *)
Lemma count_lines_invariant (f : Path) (lines : list str) :
  let R := fst (count_lines f lines) in
  R.(file) = f
  /\ (R.(totalLines) = R.(commentLines) + R.(codeLines) + R.(blankLines))%Z
  /\ (0 <= R.(totalLines))%Z /\ (0 <= R.(commentLines))%Z
  /\ (0 <= R.(codeLines))%Z /\ (0 <= R.(blankLines))%Z.
Proof.
  rewrite count_lines_closed_form. cbn [fst file totalLines
    commentLines codeLines blankLines].
  pose proof (tally_partition (fst (classify_all false lines))) as Hp.
  rewrite classify_all_length in Hp.
  repeat split; try apply tally_nonneg; lia.
Qed.

(** ** [count_file] *)

(** The outcomes of [count_file] on a file that was read: the exception for
    an unclosed block, or the record appended. The assertion of line 118
    never fails. *)
Lemma count_file_read (fs : FileSystem) (file : Path) (content : str)
    (self : LineCounter) :
  open_read fs file = Returns content ->
  count_file fs file self
  = if snd (count_lines file (Str.splitlines content))
    then (Raises (CommentNotClosedError file), self)
    else (Returns tt,
          mkLineCounter self.(_settings)
            (self.(_fileDatas)
             ++ [fst (count_lines file (Str.splitlines content))])).
Proof.
  intros Hread. unfold count_file, bind, call. rewrite Hread.
  pose proof (count_lines_invariant file (Str.splitlines content)) as Hinv.
  destruct (count_lines file (Str.splitlines content)) as [fileData state].
  cbn [fst snd] in *. destruct state; [reflexivity|].
  destruct Hinv as (_ & Hsum & _).
  apply Z.eqb_eq in Hsum. rewrite Hsum. reflexivity.
Qed.

Lemma count_file_unread (fs : FileSystem) (file : Path) (e : exn)
    (self : LineCounter) :
  open_read fs file = Raises e ->
  count_file fs file self = (Raises e, self).
Proof. intros Hread. unfold count_file, bind, call. now rewrite Hread. Qed.

(** [count_file] never raises [AssertionError]. *)
Lemma count_file_assertion_holds (fs : FileSystem) (file : Path)
    (self : LineCounter) :
  open_read fs file <> Raises AssertionError ->
  fst (count_file fs file self) <> Raises AssertionError.
Proof.
  intros Hopen. destruct (open_read fs file) as [content|e] eqn:Hread.
  - rewrite (count_file_read _ _ _ self Hread).
    destruct (snd (count_lines file (Str.splitlines content))); discriminate.
  - rewrite (count_file_unread _ _ _ self Hread). simpl. congruence.
Qed.

(** A raising [count_file] leaves the collection as it was. *)
Lemma count_file_raises_unchanged (fs : FileSystem) (file : Path)
    (self self' : LineCounter) (e : exn) :
  count_file fs file self = (Raises e, self') -> self' = self.
Proof.
  destruct (open_read fs file) as [content|e'] eqn:Hread.
  - rewrite (count_file_read _ _ _ self Hread).
    destruct (snd (count_lines file (Str.splitlines content))); congruence.
  - rewrite (count_file_unread _ _ _ self Hread). congruence.
Qed.

(** A returning [count_file] appended one record, that of the file. *)
Lemma count_file_returns_appended (fs : FileSystem) (file : Path)
    (self self' : LineCounter) (u : unit) :
  count_file fs file self = (Returns u, self') ->
  exists content,
    open_read fs file = Returns content
    /\ snd (count_lines file (Str.splitlines content)) = false
    /\ self' = mkLineCounter self.(_settings)
                 (self.(_fileDatas)
                  ++ [fst (count_lines file (Str.splitlines content))]).
Proof.
  destruct (open_read fs file) as [content|e'] eqn:Hread.
  - rewrite (count_file_read _ _ _ self Hread).
    destruct (snd (count_lines file (Str.splitlines content))) eqn:Hstate;
      [discriminate|].
    intros [= <-]. exists content. auto.
  - rewrite (count_file_unread _ _ _ self Hread). discriminate.
Qed.

(** ** The record of a counted file *)

(** C1. Whenever [count_file] returns, it has appended one record [R] for the
    file, with [totalLines = commentLines + codeLines + blankLines] and none of
    the four counts negative. *)
Theorem count_file_record_invariant (fs : FileSystem) (f : Path)
    (self self' : LineCounter) :
  count_file fs f self = (Returns tt, self') ->
  exists R : FileData,
    self'.(_fileDatas) = self.(_fileDatas) ++ [R]
    /\ R.(file) = f
    /\ (R.(totalLines) = R.(commentLines) + R.(codeLines) + R.(blankLines))%Z
    /\ (0 <= R.(totalLines))%Z /\ (0 <= R.(commentLines))%Z
    /\ (0 <= R.(codeLines))%Z /\ (0 <= R.(blankLines))%Z.
Proof.
  intros Hret.
  destruct (count_file_returns_appended _ _ _ _ _ Hret)
    as (content & _ & _ & ->).
  exists (fst (count_lines f (Str.splitlines content))).
  split; [reflexivity|].
  apply count_lines_invariant.
Qed.

Lemma count_file_record_invariant_witness :
  let self := LineCounter_init (default_settings a_py) in
  let self' := mkLineCounter (default_settings a_py) [mkFileData a_py 1 0 1 0] in
  count_file only_a_py a_py self = (Returns tt, self')
  /\ exists R : FileData,
       self'.(_fileDatas) = self.(_fileDatas) ++ [R]
       /\ R.(file) = a_py
       /\ (R.(totalLines) = R.(commentLines) + R.(codeLines) + R.(blankLines))%Z
       /\ (0 <= R.(totalLines))%Z /\ (0 <= R.(commentLines))%Z
       /\ (0 <= R.(codeLines))%Z /\ (0 <= R.(blankLines))%Z.
Proof.
  split; [reflexivity|].
  apply (count_file_record_invariant only_a_py a_py
           (LineCounter_init (default_settings a_py))
           (mkLineCounter (default_settings a_py) [mkFileData a_py 1 0 1 0])).
  reflexivity.
Defined.

(** ** Bare delimiter lines *)

(** C2. On the three lines ['''], [inside], ['''] the loop counts two comment
    lines and one code line: each bare delimiter line both starts and ends
    with the delimiter, so neither toggles the state and [inside] is read
    with the state closed. *)
Theorem bare_delimiter_lines_count_code (f : Path) :
  count_lines f [py "'''"; py "inside"; py "'''"]
  = (mkFileData f 3 2 1 0, false).
Proof. reflexivity. Qed.

(** The same through [classify]: comment, code, comment. *)
Example bare_delimiter_lines_kinds :
  classify_all false [py "'''"; py "inside"; py "'''"]
  = ([Comment; Code; Comment], false).
Proof. reflexivity. Qed.

(** A block opened by a delimiter followed by text and closed by a bare
    delimiter line is left open for the same reason. *)
Example text_then_bare_delimiter_stays_open (f : Path) :
  count_lines f [triple_double ++ py "Summary."; py "More."; triple_double]
  = (mkFileData f 3 3 0 0, true).
Proof. reflexivity. Qed.

(** ** The precedence of the five steps *)

(** C3. Each turn of the loop classifies its line once, by the five steps of
    [classify] taken in order on the stripped line, adds one to [totalLines]
    and one to the counter of that class; over a whole file, [totalLines] is
    the number of lines and each other counter is the number of lines of its
    class. *)
Theorem classifier_follows_precedence (f : Path) (lines : list str) :
  (forall (fileData : FileData) (inMultiLineComment : bool) (line : str),
      count_line (fileData, inMultiLineComment) line
      = (match fst (classify inMultiLineComment (Str.strip line)) with
         | Comment => add_comment (add_total fileData)
         | Code => add_code (add_total fileData)
         | Blank => add_blank (add_total fileData)
         end,
         snd (classify inMultiLineComment (Str.strip line))))
  /\ length (fst (classify_all false lines)) = length lines
  /\ count_lines f lines
     = (mkFileData f (Z.of_nat (length lines))
          (tally Comment (fst (classify_all false lines)))
          (tally Code (fst (classify_all false lines)))
          (tally Blank (fst (classify_all false lines))),
        snd (classify_all false lines)).
Proof.
  split; [exact count_line_classify|].
  split; [apply classify_all_length | apply count_lines_closed_form].
Qed.

(** Whitespace-only lines are blank once stripped. *)
Example code_and_blank_lines (f : Path) :
  count_lines f [py "x = 1"; py ""; py "   "; py "y = 2"]
  = (mkFileData f 4 0 2 2, false).
Proof. reflexivity. Qed.

Example single_hash_comment (f : Path) :
  count_lines f [py "# comment"] = (mkFileData f 1 1 0 0, false).
Proof. reflexivity. Qed.

(** ** A block opened and closed on one line *)

Lemma starts_triple_not_hash (s : str) :
  starts_triple s = true -> Str.startswith s (py "#") = false.
Proof.
  unfold starts_triple, triple_single, triple_double.
  destruct s as [|c s]; [discriminate|].
  cbn [Str.lit Str.startswith N_of_ascii].
  intros H. apply orb_true_iff in H.
  destruct H as [H|H]; apply andb_true_iff in H; destruct H as [H _];
    apply N.eqb_eq in H; subst c; reflexivity.
Qed.

(** C4. A line whose stripped form starts with a triple-quote delimiter and
    ends with one (of either style) is counted as a comment and leaves
    [inMultiLineComment] as it was; a file of that single line gets the
    record with one line, one comment, and the state stays closed. *)
Theorem one_line_block_keeps_state (fileData : FileData)
    (inMultiLineComment : bool) (line : str) :
  starts_triple (Str.strip line) = true ->
  ends_triple (Str.strip line) = true ->
  count_line (fileData, inMultiLineComment) line
  = (add_comment (add_total fileData), inMultiLineComment)
  /\ forall f : Path, count_lines f [line] = (mkFileData f 1 1 0 0, false).
Proof.
  intros Hstart Hend.
  assert (Hstep : forall d b,
             count_line (d, b) line = (add_comment (add_total d), b)).
  { intros d b. rewrite count_line_classify. unfold classify.
    now rewrite (starts_triple_not_hash _ Hstart), Hstart, Hend. }
  split; [apply Hstep|].
  intros f. unfold count_lines. cbn [fold_left]. now rewrite Hstep.
Qed.

Lemma one_line_block_keeps_state_witness :
  starts_triple (Str.strip (py "'''docstring'''")) = true
  /\ ends_triple (Str.strip (py "'''docstring'''")) = true
  /\ count_line (mkFileData a_py 0 0 0 0, false) (py "'''docstring'''")
     = (add_comment (add_total (mkFileData a_py 0 0 0 0)), false)
  /\ forall f : Path,
       count_lines f [py "'''docstring'''"] = (mkFileData f 1 1 0 0, false).
Proof.
  split; [reflexivity|]. split; [reflexivity|].
  apply (one_line_block_keeps_state (mkFileData a_py 0 0 0 0) false
           (py "'''docstring'''")); reflexivity.
Defined.

(** Through [count_file], newline included. *)
Example docstring_file_record :
  count_file docstring_fs a_py (LineCounter_init (default_settings a_py))
  = (Returns tt,
     mkLineCounter (default_settings a_py) [mkFileData a_py 1 1 0 0]).
Proof. reflexivity. Qed.

(** ** Unclosed blocks *)

(** C5. Once the lines of a file have been read and processed, [count_file]
    raises [CommentNotClosedError] for that file exactly when
    [inMultiLineComment] is still true after the last line, and then the
    collection of records is left as it was. *)
Theorem unclosed_block_raises (fs : FileSystem) (f : Path) (content : str)
    (self : LineCounter) :
  open_read fs f = Returns content ->
  let inMultiLineComment := snd (count_lines f (Str.splitlines content)) in
  (fst (count_file fs f self) = Raises (CommentNotClosedError f)
   <-> inMultiLineComment = true)
  /\ (inMultiLineComment = true ->
      count_file fs f self = (Raises (CommentNotClosedError f), self))
  /\ (inMultiLineComment = false ->
      fst (count_file fs f self) = Returns tt).
Proof.
  intros Hread. cbv zeta. rewrite (count_file_read _ _ _ self Hread).
  destruct (snd (count_lines f (Str.splitlines content))); cbn [fst].
  - repeat split; auto; discriminate.
  - repeat split; auto; discriminate.
Qed.

Lemma unclosed_block_raises_witness :
  let self := LineCounter_init (default_settings a_py) in
  let content := py "'''opened" ++ [Str.LF] ++ py "inside" ++ [Str.LF] in
  open_read unclosed_fs a_py = Returns content
  /\ snd (count_lines a_py (Str.splitlines content)) = true
  /\ count_file unclosed_fs a_py self = (Raises (CommentNotClosedError a_py), self).
Proof.
  split; [reflexivity|]. split; [reflexivity|].
  apply (unclosed_block_raises unclosed_fs a_py
           (py "'''opened" ++ [Str.LF] ++ py "inside" ++ [Str.LF])
           (LineCounter_init (default_settings a_py)) eq_refl).
  reflexivity.
Defined.

(** ** Batch counting *)

(** [count_files] on a concatenation: the second part runs from where the
    first one returned, and not at all when it raised. *)
Lemma count_files_app (fs : FileSystem) (files rest : list Path) :
  forall self : LineCounter,
    count_files fs (files ++ rest) self
    = match count_files fs files self with
      | (Returns _, self1) => count_files fs rest self1
      | (Raises e, self1) => (Raises e, self1)
      end.
Proof.
  induction files as [|f files IH]; intros self; [reflexivity|].
  cbn [app count_files].
  destruct (path_exists fs f); cbn [negb]; [|reflexivity].
  unfold bind. destruct (count_file fs f self) as [[u|e] self1];
    [apply IH | reflexivity].
Qed.

(** A batch that returned has appended the records of its files, in order,
    and nothing else. *)
Lemma count_files_returns_records (fs : FileSystem) (files : list Path) :
  forall (self self1 : LineCounter) (u : unit),
    count_files fs files self = (Returns u, self1) ->
    map file self1.(_fileDatas) = map file self.(_fileDatas) ++ files.
Proof.
  induction files as [|f files IH]; intros self self1 u.
  - cbn. intros [= _ <-]. now rewrite app_nil_r.
  - cbn [count_files].
    destruct (path_exists fs f); cbn [negb]; [|discriminate].
    unfold bind. destruct (count_file fs f self) as [[v|e] self0] eqn:Hf;
      [|discriminate].
    intros Hrest. apply IH in Hrest. rewrite Hrest.
    destruct (count_file_returns_appended _ _ _ _ _ Hf) as (content & _ & _ & ->).
    cbn [_fileDatas]. rewrite map_app.
    destruct (count_lines_invariant f (Str.splitlines content)) as (Hfile & _).
    cbn [map]. rewrite Hfile, <- app_assoc. reflexivity.
Qed.

(** C6, as the code has it. Let the paths before [bad] be counted without
    error. If [bad] does not exist, the batch raises [FileNotFoundError] for
    it before reading it; if it exists and [count_file] raises on it (an
    unclosed block, a failed read), the batch raises that exception. Either
    way no later path is looked at, and the collection holds what it held
    after the paths before [bad]: their records stay. *)
Theorem count_files_stops_at_first_failure (fs : FileSystem)
    (good : list Path) (bad : Path) (rest : list Path)
    (self self1 : LineCounter) (e : exn) :
  count_files fs good self = (Returns tt, self1) ->
  (path_exists fs bad = false /\ e = FileNotFoundError bad)
  \/ (path_exists fs bad = true /\ fst (count_file fs bad self1) = Raises e) ->
  count_files fs (good ++ bad :: rest) self = (Raises e, self1)
  /\ map file self1.(_fileDatas) = map file self.(_fileDatas) ++ good.
Proof.
  intros Hgood Hbad. split.
  - rewrite count_files_app, Hgood. cbn [count_files].
    destruct Hbad as [[Hex ->]|[Hex Hraise]]; rewrite Hex; cbn [negb];
      [reflexivity|].
    unfold bind. destruct (count_file fs bad self1) as [[u|e'] self2] eqn:Hf;
      cbn [fst] in Hraise; [discriminate|].
    apply count_file_raises_unchanged in Hf. congruence.
  - exact (count_files_returns_records _ _ _ _ _ Hgood).
Qed.

Lemma count_files_stops_at_first_failure_witness :
  let self := LineCounter_init (default_settings a_py) in
  let self1 := mkLineCounter (default_settings a_py) [mkFileData a_py 1 0 1 0] in
  count_files only_a_py [a_py] self = (Returns tt, self1)
  /\ path_exists only_a_py b_py = false
  /\ count_files only_a_py ([a_py] ++ b_py :: [a_py]) self
     = (Raises (FileNotFoundError b_py), self1)
  /\ map file self1.(_fileDatas) = map file self.(_fileDatas) ++ [a_py].
Proof.
  split; [reflexivity|]. split; [reflexivity|].
  apply (count_files_stops_at_first_failure only_a_py [a_py] b_py [a_py]
           (LineCounter_init (default_settings a_py))
           (mkLineCounter (default_settings a_py) [mkFileData a_py 1 0 1 0])
           (FileNotFoundError b_py)).
  - reflexivity.
  - left. split; reflexivity.
Defined.

(** An unclosed block stops the batch in the same way. *)
Example unclosed_block_stops_batch :
  count_files unclosed_fs [a_py; b_py] (LineCounter_init (default_settings a_py))
  = (Raises (CommentNotClosedError a_py),
     LineCounter_init (default_settings a_py)).
Proof. reflexivity. Qed.

(** C6, as stated, fails: after [a.py] is counted and [b.py] is found
    missing, the record of [a.py] is still in the collection. *)
Lemma failed_batch_keeps_earlier_records : ~ failed_batch_keeps_no_record.
Proof.
  intros Hclaim.
  specialize (Hclaim only_a_py [a_py; b_py]
                (LineCounter_init (default_settings a_py))
                (mkLineCounter (default_settings a_py)
                   [mkFileData a_py 1 0 1 0])
                (FileNotFoundError b_py) eq_refl).
  discriminate Hclaim.
Qed.

(** ** Discovery *)

(** Induction on a tree, with the hypothesis for every entry of a
    directory. *)
Lemma Node_ind (P : Node -> Prop) :
  P RegularFile ->
  P Neither ->
  (forall entries, Forall (fun entry => P (snd entry)) entries ->
                   P (Directory entries)) ->
  forall node, P node.
Proof.
  intros Hfile Hneither Hdir.
  fix IH 1. intros [|entries|]; [exact Hfile| |exact Hneither].
  apply Hdir.
  induction entries as [|[entry child] entries IHentries]; constructor.
  - apply IH.
  - exact IHentries.
Qed.

(** The loop over the entries of a directory keeps [files] admitted, when
    the recursive calls on the subdirectories give admitted paths. *)
Lemma iterdir_loop_admitted (self : LineCounter)
    (recurse : Path -> Node -> result (list Path)) (path : Path)
    (entries : list (str * Node)) :
  Forall (fun entry =>
            forall file found,
              recurse file (snd entry) = Returns found ->
              (exists sub, snd entry = Directory sub) ->
              Forall (admitted self) found) entries ->
  forall files files' : list Path,
    Forall (admitted self) files ->
    iterdir_loop self recurse path entries files = Returns files' ->
    Forall (admitted self) files'.
Proof.
  induction 1 as [|[entry child] entries Hchild _ IH]; intros files files' Hfiles.
  - cbn. now intros [= <-].
  - cbn [iterdir_loop snd] in *. destruct child as [|sub|].
    + destruct (str_in (Pathlib.suffix (path / entry)%path)
                  PYTHON_FILE_EXTENSIONS) eqn:Hext; cbn [negb];
        [|now apply IH].
      destruct (str_in (Pathlib.name (path / entry)%path)
                  (ignoreNames (_settings self))) eqn:Hname; [now apply IH|].
      destruct (path_in (path / entry)%path (ignorePaths (_settings self)))
        eqn:Hpath; [now apply IH|].
      apply IH. apply Forall_app. split; [assumption|].
      constructor; [|constructor]. repeat split; assumption.
    + destruct (str_in (Pathlib.name (path / entry)%path)
                  (ignoreNames (_settings self))); [now apply IH|].
      destruct (path_in (path / entry)%path (ignorePaths (_settings self)));
        [now apply IH|].
      destruct (recursive (_settings self)); cbn [negb]; [|now apply IH].
      destruct (recurse (path / entry)%path (Directory sub)) as [found|e]
        eqn:Hrec; [|discriminate].
      apply IH. apply Forall_app. split; [assumption|].
      apply (Hchild _ _ Hrec). now exists sub.
    + now apply IH.
Qed.

(** Below a directory every path found is admitted. *)
Lemma get_py_files_directory_admitted (self : LineCounter) (node : Node) :
  forall (path : Path) (files : list Path),
    (exists entries, node = Directory entries) ->
    get_py_files self path node = Returns files ->
    Forall (admitted self) files.
Proof.
  induction node as [| |entries IH] using Node_ind;
    intros path files [sub Hsub]; try discriminate.
  cbn [get_py_files]. apply iterdir_loop_admitted; [|constructor].
  apply Forall_forall. intros entry Hin file found Hrec Hdir.
  rewrite Forall_forall in IH. exact (IH entry Hin file found Hdir Hrec).
Qed.

(** C7, as the code has it. When the root is a directory, every path that
    discovery returns has a bare name outside [ignoreNames], is outside
    [ignorePaths] and carries a target extension. When the root is itself a
    file, discovery returns that path alone, and only its extension was
    checked. *)
Theorem discovery_returns_admitted (self : LineCounter) (path : Path)
    (node : Node) (files : list Path) :
  get_py_files self path node = Returns files ->
  match node with
  | RegularFile =>
      files = [path]
      /\ str_in (Pathlib.suffix path) PYTHON_FILE_EXTENSIONS = true
  | Directory _ | Neither => Forall (admitted self) files
  end.
Proof.
  destruct node as [|entries|]; intros Hfound.
  - cbn [get_py_files] in Hfound.
    destruct (str_in (Pathlib.suffix path) PYTHON_FILE_EXTENSIONS);
      [|discriminate].
    injection Hfound as <-. auto.
  - apply (get_py_files_directory_admitted self (Directory entries) path);
      [now exists entries | assumption].
  - discriminate.
Qed.

Lemma discovery_returns_admitted_witness :
  let self := LineCounter_init (default_settings project) in
  let files := [ (project / py "a.py")%path;
                 ((project / py "pkg") / py "c.py")%path ] in
  get_py_files self project project_tree = Returns files
  /\ Forall (admitted self) files.
Proof.
  split; [reflexivity|].
  apply (discovery_returns_admitted
           (LineCounter_init (default_settings project)) project project_tree
           [ (project / py "a.py")%path;
             ((project / py "pkg") / py "c.py")%path ]).
  reflexivity.
Defined.

(** C7, as stated, fails when the root is itself a file: [a.py] is returned
    although its bare name is in [ignoreNames]. *)
Lemma root_file_escapes_ignore_lists : ~ discovery_never_returns_excluded.
Proof.
  intros Hclaim.
  specialize (Hclaim
                (LineCounter_init (mkSettings a_py [py "a.py"] [] true basic))
                a_py RegularFile [a_py] eq_refl).
  inversion Hclaim as [|p ps [Hname _] _]. discriminate Hname.
Qed.

(** The same happens for a root file listed in [ignorePaths]. *)
Example root_file_in_ignorePaths :
  get_py_files (LineCounter_init (mkSettings a_py [] [a_py] true basic))
    a_py RegularFile
  = Returns [a_py].
Proof. reflexivity. Qed.

(** [recursive = False] keeps discovery out of the subdirectories. *)
Example non_recursive_discovery :
  get_py_files
    (LineCounter_init (mkSettings project [] [] false basic))
    project project_tree
  = Returns [(project / py "a.py")%path].
Proof. reflexivity. Qed.

(** ** Splitting the content into lines *)

(** Characters that are no line boundary go to the current line. *)
Lemma splitlines_from_break_free (l : str) :
  forall (line rest : str),
    break_free l = true ->
    Str.splitlines_from line (l ++ rest) = Str.splitlines_from (line ++ l) rest.
Proof.
  induction l as [|c l IH]; intros line rest Hfree.
  - now rewrite app_nil_r.
  - cbn [break_free forallb] in Hfree. apply andb_true_iff in Hfree.
    destruct Hfree as [Hc Hl]. apply negb_true_iff in Hc.
    cbn [app Str.splitlines_from]. rewrite Hc, IH by exact Hl.
    now rewrite <- app_assoc.
Qed.

(** A terminator closes the current line, and the next one starts empty. *)
Lemma splitlines_from_terminator (line t rest : str) :
  is_terminator t = true ->
  Str.eqb t [Str.CR] && starts_LF rest = false ->
  Str.splitlines_from line (t ++ rest) = line :: Str.splitlines_from [] rest.
Proof.
  intros Hterm Hapart.
  destruct t as [|c [|d [|x t]]]; cbn [is_terminator] in Hterm;
    try discriminate.
  - cbn [app Str.splitlines_from]. rewrite Hterm. f_equal.
    destruct rest as [|c' rest]; [reflexivity|].
    destruct ((c =? Str.CR)%N) eqn:Hc; [|reflexivity].
    apply N.eqb_eq in Hc. subst c. cbn in Hapart. cbn [andb].
    now rewrite Hapart.
  - apply andb_true_iff in Hterm. destruct Hterm as [Hc Hd].
    apply N.eqb_eq in Hc, Hd. subst c d. reflexivity.
Qed.

(** A text made of terminated lines splits into those lines: the last
    terminator ends the last line and opens no further one. *)
Lemma splitlines_join_terminated (lts : list (str * str)) :
  forallb terminated_line lts = true ->
  crlf_apart lts = true ->
  Str.splitlines (join_terminated lts) = map fst lts.
Proof.
  unfold Str.splitlines.
  induction lts as [|[l t] lts IH]; intros Hlines Hapart; [reflexivity|].
  cbn [forallb] in Hlines. apply andb_true_iff in Hlines.
  destruct Hlines as [Hlt Hlines]. unfold terminated_line in Hlt.
  cbn [fst snd] in Hlt. apply andb_true_iff in Hlt. destruct Hlt as [Hl Ht].
  cbn [crlf_apart] in Hapart. apply andb_true_iff in Hapart.
  destruct Hapart as [Hcr Hapart]. apply negb_true_iff in Hcr.
  change (join_terminated ((l, t) :: lts))
    with ((l ++ t) ++ join_terminated lts).
  rewrite <- app_assoc, (splitlines_from_break_free l [] _ Hl).
  cbn [app map fst]. rewrite (splitlines_from_terminator l t _ Ht Hcr).
  f_equal. apply IH; assumption.
Qed.

(** Every text is its lines with their terminators put back, and
    [splitlines] gives the lines. *)
Lemma lines_with_ends_spec (n : nat) :
  forall line s : str,
    (length s <= n)%nat ->
    join_terminated (lines_with_ends line s) = line ++ s
    /\ map fst (lines_with_ends line s) = Str.splitlines_from line s.
Proof.
  induction n as [|n IH]; intros line s Hlen.
  - destruct s; [|simpl in Hlen; lia].
    destruct line; cbn; rewrite ?app_nil_r; auto.
  - destruct s as [|c s'].
    { destruct line; cbn; rewrite ?app_nil_r; auto. }
    cbn [length] in Hlen. cbn [lines_with_ends Str.splitlines_from].
    destruct (Str.islinebreak c).
    + destruct s' as [|c' s''].
      * cbn. rewrite app_nil_r. auto.
      * cbn [length] in Hlen.
        destruct ((c =? Str.CR)%N && (c' =? Str.LF)%N).
        -- destruct (IH [] s'' ltac:(lia)) as [Hjoin Hfst].
           change (join_terminated ((line, [c; c']) :: lines_with_ends [] s''))
             with ((line ++ [c; c']) ++ join_terminated (lines_with_ends [] s'')).
           cbn [map fst]. rewrite Hjoin, Hfst, <- app_assoc. auto.
        -- destruct (IH [] (c' :: s'') ltac:(cbn [length]; lia)) as [Hjoin Hfst].
           change (join_terminated
                     ((line, [c]) :: lines_with_ends [] (c' :: s'')))
             with ((line ++ [c])
                   ++ join_terminated (lines_with_ends [] (c' :: s''))).
           cbn [map fst]. rewrite Hjoin, Hfst, <- app_assoc. auto.
    + destruct (IH (line ++ [c]) s' ltac:(lia)) as [Hjoin Hfst].
      rewrite Hjoin, Hfst, <- app_assoc. auto.
Qed.

Lemma break_free_snoc (line : str) (c : Str.char) :
  break_free line = true -> Str.islinebreak c = false ->
  break_free (line ++ [c]) = true.
Proof.
  intros Hline Hc. unfold break_free. rewrite forallb_app.
  fold (break_free line). rewrite Hline. cbn. now rewrite Hc.
Qed.

(** In a text that ends in a terminator every line has its terminator, and
    no lone CR is followed by an LF. *)
Lemma lines_with_ends_terminated (n : nat) :
  forall line s : str,
    (length s <= n)%nat ->
    break_free line = true ->
    (s = [] /\ line = []) \/ ends_in_break s = true ->
    forallb terminated_line (lines_with_ends line s) = true
    /\ crlf_apart (lines_with_ends line s) = true.
Proof.
  induction n as [|n IH]; intros line s Hlen Hline Hend.
  - destruct s; [|simpl in Hlen; lia].
    destruct Hend as [[_ ->]|Hend]; [auto | discriminate].
  - destruct s as [|c s'].
    { destruct Hend as [[_ ->]|Hend]; [auto | discriminate]. }
    destruct Hend as [[Hnil _]|Hend]; [discriminate|].
    cbn [length] in Hlen. cbn [lines_with_ends].
    destruct (Str.islinebreak c) eqn:Hc.
    + destruct s' as [|c' s''].
      * cbn [lines_with_ends forallb crlf_apart join_terminated flat_map
             starts_LF]. unfold terminated_line. cbn [fst snd is_terminator].
        rewrite Hline, Hc, andb_false_r. auto.
      * cbn [length] in Hlen.
        destruct ((c =? Str.CR)%N && (c' =? Str.LF)%N) eqn:Hcrlf.
        -- destruct (IH [] s'' ltac:(lia) eq_refl) as [Hall Hapart].
           { destruct s'' as [|x s'']; [left; auto | right; exact Hend]. }
           cbn [forallb crlf_apart]. unfold terminated_line at 1.
           cbn [fst snd is_terminator]. rewrite Hline, Hcrlf, Hall, Hapart.
           destruct (Str.eqb [c; c'] [Str.CR]) eqn:Hcr; [|auto].
           apply Str_eqb_eq in Hcr. discriminate Hcr.
        -- destruct (IH [] (c' :: s'') ltac:(cbn [length]; lia) eq_refl)
             as [Hall Hapart]; [right; exact Hend|].
           cbn [forallb crlf_apart]. unfold terminated_line at 1.
           cbn [fst snd is_terminator]. rewrite Hline, Hc, Hall, Hapart.
           destruct (lines_with_ends_spec (S n) [] (c' :: s'')
                       ltac:(cbn [length]; lia)) as [-> _].
           cbn [app starts_LF].
           destruct (Str.eqb [c] [Str.CR]) eqn:Hcr; [|auto].
           apply Str_eqb_eq in Hcr. injection Hcr as ->.
           cbn in Hcrlf. rewrite Hcrlf. auto.
    + apply IH; [lia | now apply break_free_snoc |].
      destruct s' as [|c' s'']; [cbn in Hend; congruence | right; exact Hend].
Qed.

(** C8. A content that ends in a line terminator is made of lines that are
    each followed by a terminator, the last line included, and it is split
    into exactly those lines: the final terminator ends the last line and
    yields no empty line after it, so [totalLines] is the number of
    terminated lines and the record is that of the lines themselves. *)
Theorem final_terminator_adds_no_line (f : Path) (content : str) :
  ends_in_break content = true ->
  exists lts : list (str * str),
    content = join_terminated lts
    /\ forallb terminated_line lts = true
    /\ crlf_apart lts = true
    /\ Str.splitlines content = map fst lts
    /\ count_lines f (Str.splitlines content) = count_lines f (map fst lts)
    /\ (fst (count_lines f (Str.splitlines content))).(totalLines)
       = Z.of_nat (length lts)
    /\ (fst (count_lines f (Str.splitlines content))).(blankLines)
       = tally Blank (fst (classify_all false (map fst lts))).
Proof.
  intros Hend. exists (lines_with_ends [] content).
  destruct (lines_with_ends_spec (length content) [] content (le_n _))
    as [Hjoin Hfst].
  destruct (lines_with_ends_terminated (length content) [] content (le_n _)
              eq_refl (or_intror Hend)) as [Hall Hapart].
  unfold Str.splitlines. rewrite <- Hfst.
  rewrite count_lines_closed_form. cbn [fst totalLines blankLines].
  rewrite length_map. repeat split; auto.
Qed.

Lemma final_terminator_adds_no_line_witness :
  let content := py "x = 1" ++ [Str.LF] ++ [Str.LF] in
  ends_in_break content = true
  /\ exists lts : list (str * str),
       content = join_terminated lts
       /\ forallb terminated_line lts = true
       /\ crlf_apart lts = true
       /\ Str.splitlines content = map fst lts
       /\ count_lines a_py (Str.splitlines content) = count_lines a_py (map fst lts)
       /\ (fst (count_lines a_py (Str.splitlines content))).(totalLines)
          = Z.of_nat (length lts)
       /\ (fst (count_lines a_py (Str.splitlines content))).(blankLines)
          = tally Blank (fst (classify_all false (map fst lts))).
Proof.
  split; [reflexivity|].
  apply (final_terminator_adds_no_line a_py
           (py "x = 1" ++ [Str.LF] ++ [Str.LF])).
  reflexivity.
Defined.

(** Three terminated lines, the last one empty, are counted as three. *)
Example three_terminated_lines :
  Str.splitlines (join_terminated three_lines) = [py "# comment"; py "x = 1"; []]
  /\ count_lines a_py (Str.splitlines (join_terminated three_lines))
     = (mkFileData a_py 3 1 1 1, false).
Proof.
  rewrite (splitlines_join_terminated three_lines eq_refl eq_refl).
  split; reflexivity.
Qed.

(** One line and its newline make one line; a lone newline makes one empty
    line, not two. *)
Example newline_after_last_line :
  Str.splitlines (py "x = 1" ++ [Str.LF]) = [py "x = 1"]
  /\ Str.splitlines (py "x = 1") = [py "x = 1"]
  /\ Str.splitlines [Str.LF] = [[]]
  /\ Str.splitlines [] = [].
Proof. repeat split. Qed.

(** ** The report on no record *)

(** C9. With no record, every total is zero and both ratios are zero, and
    nothing is raised: [print_file_data] prints one line and stops, the
    totals of lines 204-214 are sums over nothing, and
    [_zero_safe_division] answers [0.0] for every numerator when the
    denominator is zero. *)
Theorem empty_collection_totals (int_truediv : Z -> Z -> float) :
  print_file_data int_truediv [] = [Text "No files to print."]
  /\ print_totals int_truediv []
     = [ Text "Total:";
         CountLine "total lines" 0;
         CountLine "comment lines" 0;
         CountLine "code lines" 0;
         CountLine "blank lines" 0;
         RatioLine "blank-code ratio" 0%float;
         RatioLine "comment-code ratio" 0%float ]
  /\ (forall numerator : Z,
         _zero_safe_division int_truediv numerator 0 = 0%float
         /\ ratio_percent int_truediv numerator 0 = 0%float).
Proof. repeat split. Qed.

(** With a code line the division is Python's. *)
Example ratio_with_code (int_truediv : Z -> Z -> float) :
  _zero_safe_division int_truediv 1 2 = int_truediv 1%Z 2%Z.
Proof. reflexivity. Qed.

(** ** [get_arbitrary_settings] *)

(** The generated [__init__] returns exactly when it gets as many arguments
    as there are fields. *)
Lemma dataclass_init_returns (params : list string) (args : list pyobj) :
  (exists fields, dataclass_init params args = Returns fields)
  <-> length args = length params.
Proof.
  unfold dataclass_init.
  destruct (Nat.ltb_spec (length params) (length args)) as [Hlt|Hle].
  - split; [intros [? ?]; discriminate | lia].
  - destruct (skipn (length args) params) as [|m ms] eqn:Hskip.
    + split; [intros _ | intros _; eauto].
      apply (f_equal (@length _)) in Hskip. rewrite length_skipn in Hskip.
      simpl in Hskip. lia.
    + split; [intros [? ?]; discriminate|]. intros Heq.
      apply (f_equal (@length _)) in Hskip. rewrite length_skipn in Hskip.
      simpl in Hskip. lia.
Qed.

(** C10. [get_arbitrary_settings] raises [TypeError] for the missing
    [outputDetail] whatever the working directory is, and never returns. *)
Theorem get_arbitrary_settings_raises (cwd : Path) :
  get_arbitrary_settings cwd = Raises (TypeError ["outputDetail"%string])
  /\ forall settings, get_arbitrary_settings cwd <> Returns settings.
Proof. split; [reflexivity | discriminate]. Qed.

(** The five arguments of [cli.main] do make a [Settings]. *)
Example five_arguments_return (cwd : Path) :
  exists fields,
    dataclass_init Settings_fields
      [PyPath cwd; PyStrList []; PyPathList []; PyBool true; PyStr (py "basic")]
    = Returns fields.
Proof. apply dataclass_init_returns. reflexivity. Qed.

(** * Further properties of the counter *)

(** ** Whitespace around a line *)

Lemma lstrip_whitespace (ws s : str) :
  forallb Str.isspace ws = true -> Str.lstrip (ws ++ s) = Str.lstrip s.
Proof.
  induction ws as [|c ws IH]; intros Hws; [reflexivity|].
  cbn [forallb] in Hws. apply andb_true_iff in Hws. destruct Hws as [Hc Hws].
  cbn [app Str.lstrip]. rewrite Hc. now apply IH.
Qed.

Lemma lstrip_app (a b : str) :
  Str.lstrip (a ++ b)
  = if forallb Str.isspace a then Str.lstrip b else Str.lstrip a ++ b.
Proof.
  induction a as [|c a IH]; [reflexivity|].
  cbn [app Str.lstrip forallb]. destruct (Str.isspace c); [exact IH | reflexivity].
Qed.

Lemma forallb_rev {A : Type} (p : A -> bool) (l : list A) :
  forallb p (rev l) = forallb p l.
Proof.
  induction l as [|x l IH]; [reflexivity|].
  cbn [rev forallb]. rewrite forallb_app, IH. cbn [forallb].
  rewrite andb_true_r. apply andb_comm.
Qed.

Lemma rstrip_whitespace (s ws : str) :
  forallb Str.isspace ws = true -> Str.rstrip (s ++ ws) = Str.rstrip s.
Proof.
  intros Hws. unfold Str.rstrip. rewrite rev_app_distr, lstrip_whitespace;
    [reflexivity | now rewrite forallb_rev].
Qed.

Lemma strip_whitespace (ws1 line ws2 : str) :
  forallb Str.isspace ws1 = true ->
  forallb Str.isspace ws2 = true ->
  Str.strip (ws1 ++ line ++ ws2) = Str.strip line.
Proof.
  intros H1 H2. unfold Str.strip.
  rewrite (lstrip_whitespace ws1 _ H1), lstrip_app.
  destruct (forallb Str.isspace line) eqn:Hline.
  - rewrite <- (app_nil_r ws2), (lstrip_whitespace ws2 [] H2).
    rewrite <- (app_nil_r line), (lstrip_whitespace line [] Hline).
    reflexivity.
  - now apply rstrip_whitespace.
Qed.

(** X1. Whitespace before and after a line does not change how the loop
    counts it: indentation and trailing blanks are stripped first. *)
Theorem surrounding_whitespace_is_ignored (vars : FileData * bool)
    (ws1 line ws2 : str) :
  forallb Str.isspace ws1 = true ->
  forallb Str.isspace ws2 = true ->
  count_line vars (ws1 ++ line ++ ws2) = count_line vars line.
Proof.
  intros H1 H2. destruct vars as [fileData state].
  now rewrite !count_line_classify, (strip_whitespace ws1 line ws2 H1 H2).
Qed.

Lemma surrounding_whitespace_is_ignored_witness :
  forallb Str.isspace (py "    ") = true
  /\ forallb Str.isspace [9%N; 32%N] = true
  /\ count_line (mkFileData a_py 0 0 0 0, false)
       (py "    " ++ py "# note" ++ [9%N; 32%N])
     = count_line (mkFileData a_py 0 0 0 0, false) (py "# note").
Proof.
  split; [reflexivity|]. split; [reflexivity|].
  apply (surrounding_whitespace_is_ignored (mkFileData a_py 0 0 0 0, false)
           (py "    ") (py "# note") [9%N; 32%N]); reflexivity.
Defined.

(** X2. A line made of whitespace only (of any kind that [str.strip]
    removes) is counted as blank outside a block, and as comment inside
    one. *)
Theorem whitespace_only_line (fileData : FileData) (line : str) :
  forallb Str.isspace line = true ->
  count_line (fileData, false) line = (add_blank (add_total fileData), false)
  /\ count_line (fileData, true) line
     = (add_comment (add_total fileData), true).
Proof.
  intros Hws.
  assert (Hstrip : Str.strip line = []).
  { pose proof (strip_whitespace line [] [] Hws eq_refl) as Hstrip.
    cbn [app] in Hstrip. rewrite app_nil_r in Hstrip. exact Hstrip. }
  rewrite !count_line_classify, Hstrip. split; reflexivity.
Qed.

Lemma whitespace_only_line_witness :
  forallb Str.isspace [32%N; 9%N; 160%N; 12288%N] = true
  /\ count_line (mkFileData a_py 0 0 0 0, false) [32%N; 9%N; 160%N; 12288%N]
     = (add_blank (add_total (mkFileData a_py 0 0 0 0)), false)
  /\ count_line (mkFileData a_py 0 0 0 0, true) [32%N; 9%N; 160%N; 12288%N]
     = (add_comment (add_total (mkFileData a_py 0 0 0 0)), true).
Proof.
  split; [reflexivity|].
  apply (whitespace_only_line (mkFileData a_py 0 0 0 0)
           [32%N; 9%N; 160%N; 12288%N]).
  reflexivity.
Defined.

(** ** Inside a block *)

Lemma classify_state (state : bool) (line : str) :
  snd (classify state (Str.strip line)) = xorb state (toggles line).
Proof.
  unfold classify, toggles.
  destruct (starts_triple (Str.strip line)) eqn:Hstart.
  - rewrite (starts_triple_not_hash _ Hstart).
    destruct (ends_triple (Str.strip line)), state; reflexivity.
  - destruct (Str.startswith (Str.strip line) (py "#")), state,
      (Str.strip line); reflexivity.
Qed.

Lemma classify_open (line : str) :
  fst (classify true (Str.strip line)) = Comment.
Proof.
  unfold classify.
  destruct (Str.startswith (Str.strip line) (py "#")); [reflexivity|].
  destruct (starts_triple (Str.strip line)); [|reflexivity].
  destruct (ends_triple (Str.strip line)); reflexivity.
Qed.

(** X3. While a block is open, every line up to the next toggling line is
    counted as a comment: code, blank lines and one-line blocks inside an
    open block add to [commentLines] only, and the block stays open. *)
Theorem open_block_counts_comments (lines : list str) :
  forall fileData : FileData,
    forallb (fun line => negb (toggles line)) lines = true ->
    fold_left count_line lines (fileData, true)
    = (mkFileData fileData.(file)
         (fileData.(totalLines) + Z.of_nat (length lines))
         (fileData.(commentLines) + Z.of_nat (length lines))
         fileData.(codeLines) fileData.(blankLines),
       true).
Proof.
  induction lines as [|line lines IH]; intros fileData Hquiet.
  - destruct fileData; cbn. now rewrite !Z.add_0_r.
  - cbn [forallb] in Hquiet. apply andb_true_iff in Hquiet.
    destruct Hquiet as [Hline Hquiet]. apply negb_true_iff in Hline.
    cbn [fold_left]. rewrite count_line_classify, classify_state, Hline.
    rewrite classify_open. cbn [xorb]. rewrite (IH _ Hquiet).
    destruct fileData as [f t c o b].
    cbn [add_comment add_total file totalLines commentLines codeLines
         blankLines].
    replace (Z.of_nat (length (line :: lines)))
      with (1 + Z.of_nat (length lines))%Z by (cbn [length]; lia).
    f_equal. f_equal; lia.
Qed.

Lemma open_block_counts_comments_witness :
  let lines := [py "x = 1"; py ""; py "'''one line'''"; py "# note"] in
  forallb (fun line => negb (toggles line)) lines = true
  /\ fold_left count_line lines (mkFileData a_py 1 1 0 0, true)
     = (mkFileData a_py 5 5 0 0, true).
Proof.
  split; [reflexivity|].
  apply (open_block_counts_comments
           [py "x = 1"; py ""; py "'''one line'''"; py "# note"]
           (mkFileData a_py 1 1 0 0)).
  reflexivity.
Defined.

(** ** The state after the last line *)

Lemma classify_all_state (lines : list str) :
  forall state : bool,
    snd (classify_all state lines)
    = xorb state (Nat.odd (length (filter toggles lines))).
Proof.
  induction lines as [|line lines IH]; intros state.
  - cbn. now rewrite xorb_false_r.
  - cbn [classify_all filter].
    pose proof (classify_state state line) as Hstep.
    destruct (classify state (Str.strip line)) as [kind state'].
    specialize (IH state').
    destruct (classify_all state' lines) as [kinds final].
    cbn [snd] in *. subst state' final.
    destruct (toggles line); cbn [length].
    + rewrite Nat.odd_succ, <- Nat.negb_odd.
      destruct state, (Nat.odd (length (filter toggles lines))); reflexivity.
    + now rewrite xorb_false_r.
Qed.

(** X4. The state after the last line is the parity of the number of toggling
    lines, so [count_file] raises [CommentNotClosedError] on a file that was
    read exactly when that number is odd. *)
Theorem unclosed_iff_odd_toggles (fs : FileSystem) (f : Path) (content : str)
    (self : LineCounter) :
  open_read fs f = Returns content ->
  snd (count_lines f (Str.splitlines content))
  = Nat.odd (length (filter toggles (Str.splitlines content)))
  /\ (fst (count_file fs f self) = Raises (CommentNotClosedError f)
      <-> Nat.odd (length (filter toggles (Str.splitlines content))) = true).
Proof.
  intros Hread.
  assert (Hstate : snd (count_lines f (Str.splitlines content))
                   = Nat.odd (length (filter toggles (Str.splitlines content)))).
  { rewrite count_lines_closed_form. cbn [snd].
    now rewrite classify_all_state. }
  split; [exact Hstate|].
  rewrite (count_file_read _ _ _ self Hread), <- Hstate.
  destruct (snd (count_lines f (Str.splitlines content))); cbn [fst];
    split; congruence.
Qed.

Lemma unclosed_iff_odd_toggles_witness :
  let self := LineCounter_init (default_settings a_py) in
  let content := py "'''opened" ++ [Str.LF] ++ py "inside" ++ [Str.LF] in
  open_read unclosed_fs a_py = Returns content
  /\ Nat.odd (length (filter toggles (Str.splitlines content))) = true
  /\ fst (count_file unclosed_fs a_py self)
     = Raises (CommentNotClosedError a_py).
Proof.
  split; [reflexivity|]. split; [reflexivity|].
  apply (unclosed_iff_odd_toggles unclosed_fs a_py
           (py "'''opened" ++ [Str.LF] ++ py "inside" ++ [Str.LF])
           (LineCounter_init (default_settings a_py)) eq_refl).
  reflexivity.
Defined.

(** ** Counting two runs of lines *)

Lemma tally_app (kind : LineKind) (ks1 ks2 : list LineKind) :
  tally kind (ks1 ++ ks2) = (tally kind ks1 + tally kind ks2)%Z.
Proof. unfold tally. rewrite filter_app, length_app. lia. Qed.

Lemma classify_all_app (lines1 lines2 : list str) :
  forall state : bool,
    classify_all state (lines1 ++ lines2)
    = (fst (classify_all state lines1)
       ++ fst (classify_all (snd (classify_all state lines1)) lines2),
       snd (classify_all (snd (classify_all state lines1)) lines2)).
Proof.
  induction lines1 as [|line lines1 IH]; intros state.
  - cbn. now destruct (classify_all state lines2).
  - cbn [app classify_all].
    destruct (classify state (Str.strip line)) as [kind state'].
    rewrite IH. destruct (classify_all state' lines1) as [kinds final].
    reflexivity.
Qed.

(** X5. When the first run of lines leaves no block open, the counts of the
    two runs put end to end are the sums of their counts, and the final state
    is that of the second run. *)
Theorem count_lines_app (f : Path) (lines1 lines2 : list str) :
  snd (count_lines f lines1) = false ->
  let R1 := fst (count_lines f lines1) in
  let R2 := fst (count_lines f lines2) in
  count_lines f (lines1 ++ lines2)
  = (mkFileData f
       (R1.(totalLines) + R2.(totalLines))
       (R1.(commentLines) + R2.(commentLines))
       (R1.(codeLines) + R2.(codeLines))
       (R1.(blankLines) + R2.(blankLines)),
     snd (count_lines f lines2)).
Proof.
  rewrite !count_lines_closed_form. cbn [fst snd totalLines commentLines
    codeLines blankLines]. intros Hclosed.
  rewrite classify_all_app, Hclosed. cbn [fst snd].
  rewrite !tally_app, length_app, Nat2Z.inj_add. reflexivity.
Qed.

Lemma count_lines_app_witness :
  snd (count_lines a_py [py "'''doc"; py "'''end"]) = false
  /\ count_lines a_py ([py "'''doc"; py "'''end"] ++ [py "x = 1"; py ""])
     = (mkFileData a_py 4 2 1 1, false).
Proof.
  split; [reflexivity|].
  apply (count_lines_app a_py [py "'''doc"; py "'''end"] [py "x = 1"; py ""]).
  reflexivity.
Defined.

(** ** More on [splitlines] *)

Lemma splitlines_from_break_free_lines (n : nat) :
  forall line s : str,
    (length s <= n)%nat ->
    break_free line = true ->
    Forall (fun l => break_free l = true) (Str.splitlines_from line s).
Proof.
  induction n as [|n IH]; intros line s Hlen Hline.
  - destruct s; [|simpl in Hlen; lia].
    destruct line; cbn [Str.splitlines_from]; auto.
  - destruct s as [|c s'].
    { destruct line; cbn [Str.splitlines_from]; auto. }
    cbn [length] in Hlen. cbn [Str.splitlines_from].
    destruct (Str.islinebreak c) eqn:Hc.
    + constructor; [exact Hline|].
      destruct s' as [|c' s'']; [cbn; constructor|].
      cbn [length] in Hlen.
      destruct ((c =? Str.CR)%N && (c' =? Str.LF)%N);
        apply IH; cbn [length]; auto; lia.
    + apply IH; [lia | now apply break_free_snoc].
Qed.

(** X6. No line that [splitlines] gives to the loop holds a line-boundary
    character: the boundaries are consumed by the split, whatever the
    content. *)
Theorem splitlines_lines_hold_no_boundary (content : str) :
  Forall (fun line => break_free line = true) (Str.splitlines content).
Proof.
  apply (splitlines_from_break_free_lines (length content)); auto.
Qed.

Lemma splitlines_from_final_boundary (t : Str.char) (n : nat) :
  Str.islinebreak t = true ->
  forall line s : str,
    (length s <= n)%nat ->
    (s = [] -> line <> []) ->
    (s <> [] -> ends_in_break s = false) ->
    Str.splitlines_from line (s ++ [t]) = Str.splitlines_from line s.
Proof.
  intros Ht. induction n as [|n IH]; intros line s Hlen Hline Hend.
  - destruct s; [|simpl in Hlen; lia].
    destruct line; [now contradiction Hline|].
    cbn [app Str.splitlines_from]. now rewrite Ht.
  - destruct s as [|c s'].
    { destruct line; [now contradiction Hline|].
      cbn [app Str.splitlines_from]. now rewrite Ht. }
    cbn [length] in Hlen. specialize (Hend ltac:(discriminate)).
    cbn [app Str.splitlines_from].
    destruct (Str.islinebreak c) eqn:Hc.
    + destruct s' as [|c' s'']; [cbn in Hend; congruence|].
      cbn [length] in Hlen. cbn [app]. f_equal.
      destruct ((c =? Str.CR)%N && (c' =? Str.LF)%N) eqn:Hcrlf.
      * destruct s'' as [|c'' s'''].
        { apply andb_true_iff in Hcrlf. destruct Hcrlf as [_ Hlf].
          apply N.eqb_eq in Hlf. subst c'. discriminate Hend. }
        apply IH; [cbn [length] in *; lia | discriminate | intros _; exact Hend].
      * change (c' :: s'' ++ [t]) with ((c' :: s'') ++ [t]).
        apply IH; [cbn [length]; lia | discriminate | intros _; exact Hend].
    + apply IH; [lia | intros _; now destruct line |].
      intros Hs'. destruct s' as [|c' s'']; [now contradiction Hs' | exact Hend].
Qed.

(** X7. A content that does not end in a line terminator is split into the
    same lines with and without one added: ending the last line of a file
    with a newline (or any single boundary character) changes no count. *)
Theorem final_newline_changes_nothing (f : Path) (content : str)
    (t : Str.char) :
  content <> [] ->
  ends_in_break content = false ->
  Str.islinebreak t = true ->
  Str.splitlines (content ++ [t]) = Str.splitlines content
  /\ count_lines f (Str.splitlines (content ++ [t]))
     = count_lines f (Str.splitlines content).
Proof.
  intros Hne Hend Ht.
  assert (Hsplit : Str.splitlines (content ++ [t]) = Str.splitlines content).
  { unfold Str.splitlines.
    apply (splitlines_from_final_boundary t (length content) Ht); auto. }
  now rewrite Hsplit.
Qed.

Lemma final_newline_changes_nothing_witness :
  let content := py "x = 1" ++ [Str.LF] ++ py "y = 2" in
  content <> []
  /\ ends_in_break content = false
  /\ Str.islinebreak Str.LF = true
  /\ Str.splitlines (content ++ [Str.LF]) = Str.splitlines content
  /\ count_lines a_py (Str.splitlines (content ++ [Str.LF]))
     = count_lines a_py (Str.splitlines content).
Proof.
  split; [discriminate|]. split; [reflexivity|]. split; [reflexivity|].
  apply (final_newline_changes_nothing a_py
           (py "x = 1" ++ [Str.LF] ++ py "y = 2") Str.LF);
    [discriminate | reflexivity | reflexivity].
Defined.

(** ** More on batch counting *)

Lemma record_of_read (fs : FileSystem) (f : Path) (content : str) :
  open_read fs f = Returns content ->
  record_of fs f = fst (count_lines f (Str.splitlines content)).
Proof. intros Hread. unfold record_of. now rewrite Hread. Qed.

Lemma count_file_countable (fs : FileSystem) (f : Path) (self : LineCounter) :
  countable fs f ->
  count_file fs f self
  = (Returns tt,
     mkLineCounter self.(_settings) (self.(_fileDatas) ++ [record_of fs f])).
Proof.
  intros (_ & content & Hread & Hclosed).
  rewrite (count_file_read _ _ _ self Hread), Hclosed.
  now rewrite (record_of_read _ _ _ Hread).
Qed.

Lemma count_files_countable (fs : FileSystem) (files : list Path) :
  forall self : LineCounter,
    Forall (countable fs) files ->
    count_files fs files self
    = (Returns tt,
       mkLineCounter self.(_settings)
         (self.(_fileDatas) ++ map (record_of fs) files)).
Proof.
  induction files as [|f files IH]; intros self Hall.
  - cbn. rewrite app_nil_r. now destruct self.
  - inversion Hall as [|? ? Hf Hfiles]; subst.
    cbn [count_files]. destruct Hf as [Hex Hread]. rewrite Hex. cbn [negb].
    unfold bind. rewrite (count_file_countable fs f self (conj Hex Hread)).
    rewrite (IH _ Hfiles). cbn [_settings _fileDatas map].
    now rewrite <- app_assoc.
Qed.

Lemma count_files_returns_countable (fs : FileSystem) (files : list Path) :
  forall self : LineCounter,
    fst (count_files fs files self) = Returns tt ->
    Forall (countable fs) files.
Proof.
  induction files as [|f files IH]; intros self Hret; [constructor|].
  cbn [count_files] in Hret.
  destruct (path_exists fs f) eqn:Hex; cbn [negb] in Hret; [|discriminate].
  unfold bind in Hret.
  destruct (count_file fs f self) as [[u|e] self1] eqn:Hf; [|discriminate].
  constructor; [|exact (IH _ Hret)].
  destruct (count_file_returns_appended _ _ _ _ _ Hf)
    as (content & Hread & Hclosed & _).
  split; [exact Hex | now exists content].
Qed.

(** X8. A batch returns exactly when every path exists, can be read and
    leaves no block open; the collection then grows by the records of the
    paths, one for each, in the order of the paths. *)
Theorem count_files_returns_iff_all_countable (fs : FileSystem)
    (files : list Path) (self : LineCounter) :
  (fst (count_files fs files self) = Returns tt
   <-> Forall (countable fs) files)
  /\ (Forall (countable fs) files ->
      snd (count_files fs files self)
      = mkLineCounter self.(_settings)
          (self.(_fileDatas) ++ map (record_of fs) files)).
Proof.
  split; [split|].
  - apply count_files_returns_countable.
  - intros Hall. now rewrite (count_files_countable fs files self Hall).
  - intros Hall. now rewrite (count_files_countable fs files self Hall).
Qed.

Lemma count_files_returns_iff_all_countable_witness :
  let self := LineCounter_init (default_settings a_py) in
  Forall (countable only_a_py) [a_py; a_py]
  /\ snd (count_files only_a_py [a_py; a_py] self)
     = mkLineCounter (default_settings a_py)
         [mkFileData a_py 1 0 1 0; mkFileData a_py 1 0 1 0].
Proof.
  assert (Hall : Forall (countable only_a_py) [a_py; a_py]).
  { repeat constructor; exists (py "x = 1"); split; reflexivity. }
  split; [exact Hall|].
  exact (proj2 (count_files_returns_iff_all_countable only_a_py [a_py; a_py]
                  (LineCounter_init (default_settings a_py))) Hall).
Defined.

Lemma count_file_keeps (fs : FileSystem) (f : Path) (self self' : LineCounter)
    (outcome : result unit) :
  count_file fs f self = (outcome, self') ->
  self'.(_settings) = self.(_settings)
  /\ (Forall record_ok self.(_fileDatas) -> Forall record_ok self'.(_fileDatas)).
Proof.
  destruct (open_read fs f) as [content|e] eqn:Hread.
  - rewrite (count_file_read _ _ _ self Hread).
    destruct (snd (count_lines f (Str.splitlines content)));
      intros [= _ <-]; [auto|].
    split; [reflexivity|]. cbn [_fileDatas]. intros Hok.
    apply Forall_app. split; [exact Hok|]. constructor; [|constructor].
    apply (count_lines_invariant f (Str.splitlines content)).
  - rewrite (count_file_unread _ _ _ self Hread). intros [= _ <-]. auto.
Qed.

(** X9. Whether a batch returns or raises, it leaves the settings of the
    [LineCounter] as they were, and if every record of the collection
    satisfied [totalLines = commentLines + codeLines + blankLines] with
    non-negative counts before, every record does after. *)
Theorem count_files_keeps_settings_and_records (fs : FileSystem)
    (files : list Path) :
  forall (self self' : LineCounter) (outcome : result unit),
    count_files fs files self = (outcome, self') ->
    self'.(_settings) = self.(_settings)
    /\ (Forall record_ok self.(_fileDatas) ->
        Forall record_ok self'.(_fileDatas)).
Proof.
  induction files as [|f files IH]; intros self self' outcome.
  - cbn. intros [= _ <-]. auto.
  - cbn [count_files]. destruct (path_exists fs f); cbn [negb];
      [|intros [= _ <-]; auto].
    unfold bind. destruct (count_file fs f self) as [[u|e] self1] eqn:Hf.
    + intros Hrest. destruct (count_file_keeps _ _ _ _ _ Hf) as [Hs Hok].
      destruct (IH _ _ _ Hrest) as [Hs' Hok']. split; [congruence | auto].
    + intros [= _ <-]. exact (count_file_keeps _ _ _ _ _ Hf).
Qed.

Lemma count_files_keeps_settings_and_records_witness :
  let self := LineCounter_init (default_settings a_py) in
  let self' := mkLineCounter (default_settings a_py) [mkFileData a_py 1 0 1 0] in
  count_files only_a_py [a_py; b_py] self = (Raises (FileNotFoundError b_py), self')
  /\ self'.(_settings) = self.(_settings)
  /\ (Forall record_ok self.(_fileDatas) -> Forall record_ok self'.(_fileDatas)).
Proof.
  split; [reflexivity|].
  apply (count_files_keeps_settings_and_records only_a_py [a_py; b_py]
           (LineCounter_init (default_settings a_py))
           (mkLineCounter (default_settings a_py) [mkFileData a_py 1 0 1 0])
           (Raises (FileNotFoundError b_py))).
  reflexivity.
Defined.

(** ** The totals of a report *)

Lemma fold_left_add (xs : list Z) (a : Z) :
  fold_left Z.add xs a = (a + fold_left Z.add xs 0)%Z.
Proof.
  revert a. induction xs as [|x xs IH]; intros a; cbn [fold_left].
  - lia.
  - rewrite (IH (a + x)%Z), (IH (0 + x)%Z). lia.
Qed.

Lemma sum_cons (x : Z) (xs : list Z) : sum (x :: xs) = (x + sum xs)%Z.
Proof. unfold sum. cbn [fold_left]. rewrite fold_left_add. lia. Qed.

(** X10. The totals that the report computes keep the accounting identity:
    when every record has [totalLines = commentLines + codeLines +
    blankLines] and non-negative counts, the total of [totalLines] is the sum
    of the three other totals, and no total is negative. *)
Theorem totals_keep_identity (fileDatas : list FileData) :
  Forall record_ok fileDatas ->
  (sum (map totalLines fileDatas)
   = sum (map commentLines fileDatas) + sum (map codeLines fileDatas)
     + sum (map blankLines fileDatas))%Z
  /\ (0 <= sum (map totalLines fileDatas))%Z
  /\ (0 <= sum (map commentLines fileDatas))%Z
  /\ (0 <= sum (map codeLines fileDatas))%Z
  /\ (0 <= sum (map blankLines fileDatas))%Z.
Proof.
  induction 1 as [|R fileDatas HR _ IH]; [cbn; lia|].
  cbn [map]. rewrite !sum_cons. unfold record_ok in HR. lia.
Qed.

Lemma totals_keep_identity_witness :
  let fileDatas := [mkFileData a_py 4 1 2 1; mkFileData b_py 3 3 0 0] in
  Forall record_ok fileDatas
  /\ (sum (map totalLines fileDatas)
      = sum (map commentLines fileDatas) + sum (map codeLines fileDatas)
        + sum (map blankLines fileDatas))%Z.
Proof.
  assert (Hok : Forall record_ok
                  [mkFileData a_py 4 1 2 1; mkFileData b_py 3 3 0 0]).
  { repeat constructor; cbn; lia. }
  split; [exact Hok|].
  exact (proj1 (totals_keep_identity
                  [mkFileData a_py 4 1 2 1; mkFileData b_py 3 3 0 0] Hok)).
Defined.

(** ** More on discovery *)




Lemma found_cons (self : LineCounter) (path : Path) (entry : str)
    (child : Node) (entries : list (str * Node)) (p : Path) :
  found self path ((entry, child) :: entries) p
  <-> (child = RegularFile /\ admitted self (path / entry)%path
       /\ p = (path / entry)%path)
      \/ (exists sub,
             child = Directory sub
             /\ str_in (Pathlib.name (path / entry)%path)
                  self.(_settings).(ignoreNames) = false
             /\ path_in (path / entry)%path self.(_settings).(ignorePaths)
                = false
             /\ self.(_settings).(recursive) = true
             /\ found self (path / entry)%path sub p)
      \/ found self path entries p.
Proof.
  split.
  - intros Hfound.
    inversion Hfound as [? ? e Hin Hadm | ? ? e sub ? Hin Hn Hp Hr Hsub];
      subst; destruct Hin as [[= -> ->]|Hin].
    + left. auto.
    + right. right. now apply found_here.
    + right. left. exists sub. auto.
    + right. right. now apply (found_below self path entries e sub).
  - intros [(-> & Hadm & ->)|[(sub & -> & Hn & Hp & Hr & Hsub)|Hfound]].
    + apply found_here; [now left | exact Hadm].
    + apply (found_below self path _ entry sub); auto. now left.
    + destruct Hfound as [? ? e Hin Hadm | ? ? e sub ? Hin Hn Hp Hr Hsub].
      * apply found_here; [now right | exact Hadm].
      * apply (found_below _ _ _ e sub); auto. now right.
Qed.

Lemma found_nil (self : LineCounter) (path p : Path) :
  ~ found self path [] p.
Proof. intros Hfound. inversion Hfound; subst; contradiction. Qed.

Lemma iterdir_loop_found (self : LineCounter)
    (recurse : Path -> Node -> result (list Path)) (path : Path)
    (entries : list (str * Node)) :
  Forall (fun entry =>
            forall file sub files,
              snd entry = Directory sub ->
              recurse file (snd entry) = Returns files ->
              forall p, In p files <-> found self file sub p) entries ->
  forall files files' : list Path,
    iterdir_loop self recurse path entries files = Returns files' ->
    forall p, In p files' <-> In p files \/ found self path entries p.
Proof.
  induction 1 as [|[entry child] entries Hchild _ IH]; intros files files'.
  - cbn. intros [= <-] p. pose proof (found_nil self path p). tauto.
  - cbn [iterdir_loop snd] in *. intros Hloop p. rewrite found_cons.
    unfold admitted. destruct child as [|sub|].
    + destruct (str_in (Pathlib.suffix (path / entry)%path)
                  PYTHON_FILE_EXTENSIONS) eqn:Hext; cbn [negb] in Hloop.
      2:{ rewrite (IH _ _ Hloop p). split; [tauto|].
          intros [?|[(_ & (_ & _ & Hx) & _)|[(? & ? & _)|?]]];
            auto; congruence. }
      destruct (str_in (Pathlib.name (path / entry)%path)
                  (ignoreNames (_settings self))) eqn:Hname.
      { rewrite (IH _ _ Hloop p). split; [tauto|].
        intros [?|[(_ & (Hx & _) & _)|[(? & ? & _)|?]]]; auto; congruence. }
      destruct (path_in (path / entry)%path (ignorePaths (_settings self)))
        eqn:Hpath.
      { rewrite (IH _ _ Hloop p). split; [tauto|].
        intros [?|[(_ & (_ & Hx & _) & _)|[(? & ? & _)|?]]]; auto; congruence. }
      rewrite (IH _ _ Hloop p), in_app_iff. cbn [In]. split.
      * intros [[?|[<-|[]]]|?]; auto. right. left. auto.
      * intros [?|[(_ & _ & ->)|[(? & ? & _)|?]]]; auto; congruence.
    + destruct (str_in (Pathlib.name (path / entry)%path)
                  (ignoreNames (_settings self))) eqn:Hname.
      { rewrite (IH _ _ Hloop p). split; [tauto|].
        intros [?|[(? & _)|[(? & _ & Hx & _)|?]]]; auto; congruence. }
      destruct (path_in (path / entry)%path (ignorePaths (_settings self)))
        eqn:Hpath.
      { rewrite (IH _ _ Hloop p). split; [tauto|].
        intros [?|[(? & _)|[(? & _ & _ & Hx & _)|?]]]; auto; congruence. }
      destruct (recursive (_settings self)) eqn:Hrec; cbn [negb] in Hloop.
      2:{ rewrite (IH _ _ Hloop p). split; [tauto|].
          intros [?|[(? & _)|[(? & _ & _ & _ & Hx & _)|?]]]; auto; congruence. }
      destruct (recurse (path / entry)%path (Directory sub)) as [below|e]
        eqn:Hbelow; [|discriminate].
      rewrite (IH _ _ Hloop p), in_app_iff.
      rewrite (Hchild (path / entry)%path sub below eq_refl Hbelow p). split.
      * intros [[?|?]|?]; auto. right. right. left. exists sub. auto.
      * intros [?|[(? & _)|[(sub' & [= <-] & _ & _ & _ & ?)|?]]];
          auto; congruence.
    + rewrite (IH _ _ Hloop p). split; [tauto|].
      intros [?|[(? & _)|[(? & ? & _)|?]]]; auto; congruence.
Qed.

Lemma get_py_files_node_found (self : LineCounter) (node : Node) :
  forall (path : Path) (entries : list (str * Node)) (files : list Path),
    node = Directory entries ->
    get_py_files self path node = Returns files ->
    forall p, In p files <-> found self path entries p.
Proof.
  induction node as [| |sub IH] using Node_ind;
    intros path entries files [= <-] Hfiles p.
  cbn [get_py_files] in Hfiles.
  rewrite (iterdir_loop_found self (get_py_files self) path sub) with
    (files := []) (files' := files); [cbn [In]; tauto | | exact Hfiles].
  apply Forall_forall. intros entry Hin file sub' below Hdir Hbelow q.
  rewrite Forall_forall in IH. exact (IH entry Hin file sub' below Hdir Hbelow q).
Qed.

(** X12. On a directory, discovery returns exactly the files it is to find:
    a path is in the result if and only if it is a regular file with a target
    extension and a bare name and path that are not excluded, lying in the
    root or, in a recursive walk, below it through directories that are not
    excluded. Nothing is missed and nothing else is returned. *)
Theorem discovery_finds_exactly (self : LineCounter) (path : Path)
    (entries : list (str * Node)) (files : list Path) (p : Path) :
  get_py_files self path (Directory entries) = Returns files ->
  (In p files <-> found self path entries p).
Proof.
  intros Hfiles.
  exact (get_py_files_node_found self (Directory entries) path entries files
           eq_refl Hfiles p).
Qed.

Lemma discovery_finds_exactly_witness :
  let self := LineCounter_init (default_settings project) in
  let files := [ (project / py "a.py")%path;
                 ((project / py "pkg") / py "c.py")%path ] in
  get_py_files self project (Directory project_entries) = Returns files
  /\ found self project project_entries
       ((project / py "pkg") / py "c.py")%path.
Proof.
  split; [reflexivity|].
  apply (discovery_finds_exactly
           (LineCounter_init (default_settings project)) project
           project_entries
           [ (project / py "a.py")%path;
             ((project / py "pkg") / py "c.py")%path ]
           ((project / py "pkg") / py "c.py")%path eq_refl).
  right. now left.
Defined.

Lemma iterdir_loop_not_recursive (self : LineCounter)
    (recurse : Path -> Node -> result (list Path)) (path : Path)
    (entries : list (str * Node)) :
  self.(_settings).(recursive) = false ->
  forall files : list Path,
    iterdir_loop self recurse path entries files
    = Returns (files ++ direct_files self path entries).
Proof.
  intros Hrec.
  induction entries as [|[entry child] entries IH]; intros files.
  - cbn. now rewrite app_nil_r.
  - cbn [iterdir_loop direct_files flat_map fst snd].
    fold (direct_files self path entries). unfold admittedb.
    destruct child as [|sub|].
    + destruct (str_in (Pathlib.suffix (path / entry)%path)
                  PYTHON_FILE_EXTENSIONS); cbn [negb andb]; [|apply IH].
      destruct (str_in (Pathlib.name (path / entry)%path)
                  (ignoreNames (_settings self))); cbn [negb andb]; [apply IH|].
      destruct (path_in (path / entry)%path (ignorePaths (_settings self)));
        cbn [negb]; [apply IH|].
      rewrite IH, <- app_assoc. reflexivity.
    + rewrite Hrec. cbn [negb].
      destruct (str_in _ _); [apply IH|]. destruct (path_in _ _); apply IH.
    + apply IH.
Qed.

(** X13. With [recursive = False] discovery returns the admitted regular
    files that are entries of the root itself, in directory order, and
    nothing from any subdirectory, whatever the subdirectories hold. *)
Theorem non_recursive_returns_direct_files (self : LineCounter) (path : Path)
    (entries : list (str * Node)) :
  self.(_settings).(recursive) = false ->
  get_py_files self path (Directory entries)
  = Returns (direct_files self path entries).
Proof.
  intros Hrec. cbn [get_py_files].
  now rewrite (iterdir_loop_not_recursive self _ path entries Hrec []).
Qed.

Lemma non_recursive_returns_direct_files_witness :
  let self := LineCounter_init (mkSettings project [] [] false basic) in
  self.(_settings).(recursive) = false
  /\ get_py_files self project (Directory project_entries)
     = Returns [(project / py "a.py")%path].
Proof.
  split; [reflexivity|].
  exact (non_recursive_returns_direct_files
           (LineCounter_init (mkSettings project [] [] false basic)) project
           project_entries eq_refl).
Defined.

Lemma found_below_root (self : LineCounter) (path : Path)
    (entries : list (str * Node)) (p : Path) :
  found self path entries p ->
  Pathlib.anchor p = Pathlib.anchor path
  /\ exists rest, rest <> [] /\ Pathlib.parts p = Pathlib.parts path ++ rest.
Proof.
  induction 1 as [path entries entry _ _
                 | path entries entry sub file _ _ _ _ _ IH].
  - split; [reflexivity|]. exists [entry]. split; [discriminate | reflexivity].
  - destruct IH as [Hanchor (rest & Hrest & Hparts)].
    split; [exact Hanchor|]. exists (entry :: rest).
    split; [discriminate|]. rewrite Hparts. cbn. now rewrite <- app_assoc.
Qed.

(** X14. Every path that discovery returns for a directory lies strictly
    below it: it has the anchor of the root and the parts of the root
    followed by at least one more part. The root itself is never returned. *)
Theorem discovered_paths_lie_below_root (self : LineCounter) (path : Path)
    (entries : list (str * Node)) (files : list Path) :
  get_py_files self path (Directory entries) = Returns files ->
  Forall (fun p =>
            Pathlib.anchor p = Pathlib.anchor path
            /\ exists rest,
                 rest <> []
                 /\ Pathlib.parts p = Pathlib.parts path ++ rest) files.
Proof.
  intros Hfiles. apply Forall_forall. intros p Hin.
  apply (found_below_root self path entries).
  exact (proj1 (get_py_files_node_found self (Directory entries) path entries
                  files eq_refl Hfiles p) Hin).
Qed.

Lemma discovered_paths_lie_below_root_witness :
  let self := LineCounter_init (default_settings project) in
  let files := [ (project / py "a.py")%path;
                 ((project / py "pkg") / py "c.py")%path ] in
  get_py_files self project (Directory project_entries) = Returns files
  /\ Forall (fun p =>
               Pathlib.anchor p = Pathlib.anchor project
               /\ exists rest,
                    rest <> []
                    /\ Pathlib.parts p = Pathlib.parts project ++ rest) files.
Proof.
  split; [reflexivity|].
  apply (discovered_paths_lie_below_root
           (LineCounter_init (default_settings project)) project
           project_entries
           [ (project / py "a.py")%path;
             ((project / py "pkg") / py "c.py")%path ]).
  reflexivity.
Defined.

(** * Properties of the command line *)

(** ** [validate_settings] *)




(** ** [count_lines] of cli.py *)

Lemma record_of_ok (fs : FileSystem) (f : Path) : record_ok (record_of fs f).
Proof.
  unfold record_of. destruct (open_read fs f) as [content|e].
  - apply (count_lines_invariant f (Str.splitlines content)).
  - unfold record_ok. cbn. lia.
Qed.

(** X16. When [count_lines] of cli.py hands a [LineCounter] to its caller,
    the whole batch was counted: discovery returned a list of files, every
    one of them existed, was read and left no block open, and the collection
    holds the records of exactly these files in discovery order, each with
    [totalLines = commentLines + codeLines + blankLines]. No [LineCounter]
    holding part of a failed batch is ever returned. *)
Theorem cli_count_lines_returns_whole_batch (fs : FileSystem) (root : Node)
    (settings : Settings) (lineCounter : LineCounter) :
  fst (cli_count_lines fs root settings) = Returns (Some lineCounter) ->
  exists files : list Path,
    get_py_files (LineCounter_init settings) settings.(path) root
    = Returns files
    /\ Forall (countable fs) files
    /\ lineCounter = mkLineCounter settings (map (record_of fs) files)
    /\ Forall record_ok lineCounter.(_fileDatas).
Proof.
  unfold cli_count_lines.
  destruct (get_py_files (LineCounter_init settings) (path settings) root)
    as [files|e] eqn:Hfiles.
  2:{ destruct e; discriminate. }
  destruct (count_files fs files (LineCounter_init settings))
    as [[u|e] self'] eqn:Hcount.
  2:{ destruct e; discriminate. }
  cbn [fst]. intros [= <-]. exists files.
  assert (Hall : Forall (countable fs) files).
  { apply (count_files_returns_countable fs files (LineCounter_init settings)).
    rewrite Hcount. now destruct u. }
  rewrite (count_files_countable fs files _ Hall) in Hcount.
  assert (Hself : self' = mkLineCounter settings (map (record_of fs) files))
    by (cbn in Hcount; congruence).
  subst self'. cbn [_fileDatas].
  repeat split; auto.
  apply Forall_forall. intros R HR. apply in_map_iff in HR.
  destruct HR as (f & <- & _). apply record_of_ok.
Qed.

Lemma cli_count_lines_returns_whole_batch_witness :
  let settings := default_settings project in
  let fs := mkFileSystem (fun _ => true) (fun _ => Returns (py "x = 1")) in
  let files := [ (project / py "a.py")%path;
                 ((project / py "pkg") / py "c.py")%path ] in
  let lineCounter :=
    mkLineCounter settings
      [ mkFileData (project / py "a.py")%path 1 0 1 0;
        mkFileData ((project / py "pkg") / py "c.py")%path 1 0 1 0 ] in
  fst (cli_count_lines fs project_tree settings) = Returns (Some lineCounter)
  /\ exists files : list Path,
       get_py_files (LineCounter_init settings) settings.(path) project_tree
       = Returns files
       /\ Forall (countable fs) files
       /\ lineCounter = mkLineCounter settings (map (record_of fs) files)
       /\ Forall record_ok lineCounter.(_fileDatas).
Proof.
  split; [reflexivity|].
  apply (cli_count_lines_returns_whole_batch
           (mkFileSystem (fun _ => true) (fun _ => Returns (py "x = 1")))
           project_tree (default_settings project)).
  reflexivity.
Defined.



(** A root that is a file of another type, and a batch stopped by a missing
    file, both give [None]. *)
Example cli_count_lines_none :
  fst (cli_count_lines only_a_py RegularFile
         (default_settings (Pathlib.mkPath [] [py "notes.txt"])))
  = Returns None
  /\ fst (cli_count_lines only_a_py
            (Directory [(py "a.py", RegularFile)])
            (default_settings (Pathlib.mkPath [] [py "src"])))
     = Returns None.
Proof. split; reflexivity. Qed.

(** ** [print_table] *)

Lemma length_ljust (s : str) (width : nat) :
  (length s <= width)%nat -> length (ljust s width) = width.
Proof.
  intros Hle. unfold ljust. rewrite length_app, repeat_length. lia.
Qed.

Lemma list_max_ge (xs : list nat) (x : nat) :
  In x xs -> (x <= list_max xs)%nat.
Proof.
  intros Hin. pose proof (proj1 (list_max_le xs (list_max xs)) (le_n _)) as Hall.
  rewrite Forall_forall in Hall. now apply Hall.
Qed.

Lemma longestRowLength_head (rows : list (list str)) (i : nat) (head : str) :
  (length head <= longestRowLength rows i head)%nat.
Proof.
  unfold longestRowLength. apply list_max_ge, in_or_app. right. now left.
Qed.

Lemma longestRowLength_cell (rows : list (list str)) (i : nat) (head : str)
    (row : list str) :
  In row rows ->
  (length (nth i row []) <= longestRowLength rows i head)%nat.
Proof.
  intros Hin. unfold longestRowLength. apply list_max_ge, in_or_app. left.
  apply in_map_iff. now exists row.
Qed.

Lemma rstrip_cell_end (s : str) :
  Str.rstrip (s ++ cell_end) = s ++ py "  |".
Proof.
  unfold Str.rstrip, cell_end. rewrite rev_app_distr. cbn.
  now rewrite rev_involutive, <- !app_assoc.
Qed.

(** X18. The table is aligned: the header line, the padding line under it
    and the line of every file have one and the same length, there is one
    line for each record, and the rule above the header is that length less
    the two blanks that end the header line. *)
Theorem print_table_is_aligned (fileDatas : list FileData) :
  exists (string paddingString : str) (file_lines : list str),
    print_table fileDatas
    = [ []; repeat underscore (length string - 2); string; paddingString ]
      ++ file_lines
    /\ length paddingString = length string
    /\ length file_lines = length fileDatas
    /\ Forall (fun line => length line = length string) file_lines.
Proof.
  unfold print_table. set (rows := map table_row fileDatas).
  cbn [header_loop header].
  eexists _, _, _. split; [|split; [|split]].
  - f_equal. f_equal. f_equal.
    rewrite (app_assoc _ (ljust (py "blank") _) cell_end), rstrip_cell_end.
    rewrite !length_app. f_equal.
    change (length cell_end) with 5%nat. change (length (py "  |")) with 3%nat.
    lia.
  - rewrite !length_app, !repeat_length.
    rewrite !length_ljust by apply longestRowLength_head. reflexivity.
  - unfold rows. now rewrite !length_map.
  - apply Forall_forall. intros line Hline. apply in_map_iff in Hline.
    destruct Hline as (row & <- & Hrow).
    pose proof (longestRowLength_cell rows 0 (py "file") row Hrow) as H0.
    pose proof (longestRowLength_cell rows 1 (py "lines") row Hrow) as H1.
    pose proof (longestRowLength_cell rows 2 (py "comments") row Hrow) as H2.
    pose proof (longestRowLength_cell rows 3 (py "code") row Hrow) as H3.
    pose proof (longestRowLength_cell rows 4 (py "blank") row Hrow) as H4.
    unfold rows in Hrow. apply in_map_iff in Hrow.
    destruct Hrow as (fileData & <- & _).
    cbn [table_row row_loop nth header] in *.
    rewrite !length_app.
    rewrite !length_ljust by (assumption || apply longestRowLength_head).
    reflexivity.
Qed.

(** One record: the lines of the table, as text. *)
Example print_table_one_file :
  print_table [mkFileData a_py 12 3 8 1]
  = [ py "";
      py "_________________________________________________";
      py "file  |  lines  |  comments  |  code  |  blank  |  ";
      py "      |         |            |        |         |  ";
      py "a.py  |  12     |  3         |  8     |  1      |  " ].
Proof. reflexivity. Qed.

(** ** [print_statistics] and [print_data] *)

Lemma truediv_raises (int_truediv : Z -> Z -> float) (n d : Z) :
  (exists e, truediv int_truediv n d = inl e) <-> d = 0%Z.
Proof.
  unfold truediv. destruct (Z.eqb_spec d 0).
  - split; [auto | intros _; now exists ZeroDivisionError].
  - split; [intros [e He]; discriminate | contradiction].
Qed.

Lemma print_statistics_outcome (int_truediv : Z -> Z -> float)
    (fileDatas : list FileData) :
  snd (print_statistics int_truediv fileDatas)
  = if ((Z.of_nat (length fileDatas) =? 0)
        || (sum (map totalLines fileDatas) =? 0))%Z
    then Some ZeroDivisionError else None.
Proof.
  unfold print_statistics, truediv.
  destruct (Z.of_nat (length fileDatas) =? 0)%Z; [reflexivity|].
  destruct (sum (map totalLines fileDatas) =? 0)%Z; reflexivity.
Qed.

(** X19. [print_statistics] raises [ZeroDivisionError] exactly when there is
    no record or the records hold no line at all; with no record it raises
    before printing anything. *)
Theorem print_statistics_raises_iff (int_truediv : Z -> Z -> float)
    (fileDatas : list FileData) :
  (snd (print_statistics int_truediv fileDatas) = Some ZeroDivisionError
   <-> fileDatas = [] \/ sum (map totalLines fileDatas) = 0%Z)
  /\ print_statistics int_truediv [] = ([], Some ZeroDivisionError).
Proof.
  split; [|reflexivity]. rewrite print_statistics_outcome.
  destruct (Z.eqb_spec (Z.of_nat (length fileDatas)) 0) as [Hn|Hn];
    cbn [orb].
  - split; [intros _; left; destruct fileDatas; [reflexivity | discriminate]
           | reflexivity].
  - destruct (Z.eqb_spec (sum (map totalLines fileDatas)) 0) as [Hs|Hs].
    + split; auto.
    + split; [discriminate|]. intros [->|?]; [now contradiction Hn | contradiction].
Qed.

(** X20. [print_data] raises only with the detail [full], and then exactly
    when [print_statistics] does: with [minimal] and [basic] it always
    returns, and with [full] it raises [ZeroDivisionError] on a
    [LineCounter] that holds no record or only records of empty files.
    Whatever the detail, it first prints the seven lines of the overall
    block, with the number of records as the number of files counted. *)
Theorem print_data_raises_iff (int_truediv : Z -> Z -> float)
    (lineCounter : LineCounter) :
  (snd (print_data int_truediv lineCounter) = Some ZeroDivisionError
   <-> lineCounter.(_settings).(outputDetail) = full
       /\ (lineCounter.(_fileDatas) = []
           \/ sum (map totalLines lineCounter.(_fileDatas)) = 0%Z))
  /\ firstn 7 (fst (print_data int_truediv lineCounter))
     = map Report
         [ Text ""; Text "overall:";
           CountLine "files counted"
             (Z.of_nat (length lineCounter.(_fileDatas)));
           CountLine "total lines" (sum (map totalLines lineCounter.(_fileDatas)));
           CountLine "comments" (sum (map commentLines lineCounter.(_fileDatas)));
           CountLine "code" (sum (map codeLines lineCounter.(_fileDatas)));
           CountLine "blank lines" (sum (map blankLines lineCounter.(_fileDatas))) ].
Proof.
  unfold print_data.
  pose proof (print_statistics_outcome int_truediv (_fileDatas lineCounter))
    as Hout.
  destruct (outputDetail (_settings lineCounter)).
  - split; [|reflexivity]. split; [discriminate | intros [? _]; discriminate].
  - split; [|reflexivity]. split; [discriminate | intros [? _]; discriminate].
  - destruct (print_statistics int_truediv (_fileDatas lineCounter))
      as [statistics raised].
    cbn [fst snd] in *. split; [|reflexivity]. subst raised.
    destruct (Z.eqb_spec (Z.of_nat (length (_fileDatas lineCounter))) 0)
      as [Hn|Hn]; cbn [orb].
    + split; [intros _; split; [reflexivity|]; left;
              destruct (_fileDatas lineCounter); [reflexivity | discriminate]
             | reflexivity].
    + destruct (Z.eqb_spec (sum (map totalLines (_fileDatas lineCounter))) 0)
        as [Hs|Hs].
      * split; auto.
      * split; [discriminate|].
        intros [_ [Hnil|?]]; [|contradiction].
        rewrite Hnil in Hn. now contradiction Hn.
Qed.

(** A directory without Python files, counted and reported in full: the
    count returns a [LineCounter] with no record and the report raises. *)
Example full_report_on_no_file (int_truediv : Z -> Z -> float) :
  let settings := mkSettings project [] [] true full in
  fst (cli_count_lines only_a_py (Directory [(py "notes.txt", RegularFile)])
         settings)
  = Returns (Some (LineCounter_init settings))
  /\ snd (print_data int_truediv (LineCounter_init settings))
     = Some ZeroDivisionError.
Proof. split; reflexivity. Qed.

(** ** No file twice, no excluded file in the report *)

Lemma joinpath_part (path : Path) (entry : str) (rest : list str) (p : Path) :
  Pathlib.parts p = Pathlib.parts (path / entry)%path ++ rest ->
  nth (length (Pathlib.parts path)) (Pathlib.parts p) [] = entry.
Proof.
  intros ->. cbn [Pathlib.joinpath Pathlib.parts].
  rewrite <- app_assoc, app_nth2, Nat.sub_diag; [reflexivity | lia].
Qed.

Lemma iterdir_loop_nodup (self : LineCounter) (path : Path)
    (entries : list (str * Node)) :
  NoDup (map fst entries) ->
  Forall (fun entry =>
            forall file sub files,
              snd entry = Directory sub ->
              get_py_files self file (snd entry) = Returns files ->
              NoDup files) entries ->
  forall files files' : list Path,
    NoDup files ->
    (forall p, In p files ->
               ~ In (nth (length (Pathlib.parts path)) (Pathlib.parts p) [])
                   (map fst entries)) ->
    iterdir_loop self (get_py_files self) path entries files = Returns files' ->
    NoDup files'.
Proof.
  intros Hnames Hchildren. revert Hnames.
  induction Hchildren as [|[entry child] entries Hchild _ IH];
    intros Hnames files files' Hfiles Hkeys.
  - cbn. now intros [= <-].
  - cbn [map fst] in Hnames, Hkeys. inversion Hnames as [|? ? Hentry Hrest]; subst.
    assert (Hskip : forall found,
               iterdir_loop self (get_py_files self) path entries files
               = Returns found -> NoDup found).
    { intros found Hloop. apply (IH Hrest files found); auto.
      intros p Hp Hin. apply (Hkeys p Hp). now right. }
    assert (Hadd : forall new found,
               NoDup new ->
               (forall p, In p new ->
                          nth (length (Pathlib.parts path)) (Pathlib.parts p) []
                          = entry) ->
               iterdir_loop self (get_py_files self) path entries (files ++ new)
               = Returns found -> NoDup found).
    { intros new found Hnew Hkey Hloop.
      apply (IH Hrest (files ++ new) found); auto.
      - apply NoDup_app; repeat split; auto.
        intros p Hp Hp'. apply (Hkeys p Hp). left. symmetry. auto.
      - intros p Hp Hin. apply in_app_iff in Hp. destruct Hp as [Hp|Hp].
        + apply (Hkeys p Hp). now right.
        + rewrite (Hkey p Hp) in Hin. contradiction. }
    cbn [iterdir_loop snd] in *. destruct child as [|sub|].
    + destruct (negb _); [apply Hskip|].
      destruct (str_in _ _); [apply Hskip|].
      destruct (path_in _ _); [apply Hskip|].
      apply Hadd; [repeat constructor; intros [] |].
      intros p [<-|[]]. apply (joinpath_part path entry []).
      now rewrite app_nil_r.
    + destruct (str_in _ _); [apply Hskip|].
      destruct (path_in _ _); [apply Hskip|].
      destruct (negb _); [apply Hskip|].
      destruct (get_py_files self (path / entry)%path (Directory sub))
        as [below|e] eqn:Hbelow; [|discriminate].
      apply Hadd; [exact (Hchild _ sub below eq_refl Hbelow)|].
      intros p Hp.
      apply (get_py_files_node_found self (Directory sub) _ sub below eq_refl
               Hbelow p) in Hp.
      destruct (found_below_root _ _ _ _ Hp) as (_ & rest & _ & Hparts).
      exact (joinpath_part path entry rest p Hparts).
    + apply Hskip.
Qed.

Lemma get_py_files_node_nodup (self : LineCounter) (node : Node) :
  distinct_names node ->
  forall (path : Path) (entries : list (str * Node)) (files : list Path),
    node = Directory entries ->
    get_py_files self path node = Returns files ->
    NoDup files.
Proof.
  induction node as [| |sub IH] using Node_ind;
    intros Hdistinct path entries files [= <-] Hfiles.
  inversion Hdistinct as [| |? Hnames Hchildren]; subst.
  cbn [get_py_files] in Hfiles.
  apply (iterdir_loop_nodup self path sub Hnames) with (files := []);
    [|constructor | intros p [] | exact Hfiles].
  rewrite Forall_forall in *. intros entry Hin file sub' below Hdir Hbelow.
  exact (IH entry Hin (Hchildren entry Hin) file sub' below Hdir Hbelow).
Qed.

(** X21. In a tree where the entries of each directory bear distinct names,
    discovery returns no path twice: no file is counted twice in one
    batch. *)
Theorem discovery_returns_no_duplicate (self : LineCounter) (path : Path)
    (entries : list (str * Node)) (files : list Path) :
  distinct_names (Directory entries) ->
  get_py_files self path (Directory entries) = Returns files ->
  NoDup files.
Proof.
  intros Hdistinct Hfiles.
  exact (get_py_files_node_nodup self (Directory entries) Hdistinct path
           entries files eq_refl Hfiles).
Qed.

Ltac names_distinct :=
  cbn [map fst];
  repeat (apply NoDup_cons;
          [ let Hin := fresh "Hin" in
            intros Hin; cbn in Hin;
            repeat (destruct Hin as [Hin|Hin]; [discriminate Hin|]);
            exact Hin
          | ]);
  apply NoDup_nil.

Lemma project_entries_distinct : distinct_names (Directory project_entries).
Proof.
  unfold project_entries.
  apply distinct_directory; [names_distinct|].
  apply Forall_cons; [apply distinct_file|].
  apply Forall_cons.
  { apply distinct_directory; [names_distinct | repeat constructor]. }
  apply Forall_cons; [|apply Forall_nil].
  apply distinct_directory; [names_distinct | repeat constructor].
Qed.

Lemma discovery_returns_no_duplicate_witness :
  let self := LineCounter_init (default_settings project) in
  let files := [ (project / py "a.py")%path;
                 ((project / py "pkg") / py "c.py")%path ] in
  distinct_names (Directory project_entries)
  /\ get_py_files self project (Directory project_entries) = Returns files
  /\ NoDup files.
Proof.
  split; [exact project_entries_distinct|]. split; [reflexivity|].
  apply (discovery_returns_no_duplicate
           (LineCounter_init (default_settings project)) project
           project_entries
           [ (project / py "a.py")%path;
             ((project / py "pkg") / py "c.py")%path ]
           project_entries_distinct).
  reflexivity.
Defined.

Lemma record_of_file (fs : FileSystem) (f : Path) : (record_of fs f).(file) = f.
Proof.
  unfold record_of. destruct (open_read fs f) as [content|e]; [|reflexivity].
  apply (count_lines_invariant f (Str.splitlines content)).
Qed.

(** X22. When the root is a directory and [count_lines] of cli.py hands a
    [LineCounter] to its caller, every record of the collection is that of a
    file the settings admit: no file with an excluded name, an excluded path
    or another extension appears in the report. *)
Theorem cli_count_lines_reports_admitted_files (fs : FileSystem)
    (entries : list (str * Node)) (settings : Settings)
    (lineCounter : LineCounter) :
  fst (cli_count_lines fs (Directory entries) settings)
  = Returns (Some lineCounter) ->
  Forall (fun R => admitted (LineCounter_init settings) R.(file))
    lineCounter.(_fileDatas).
Proof.
  unfold cli_count_lines.
  destruct (get_py_files (LineCounter_init settings) (path settings)
              (Directory entries)) as [files|e] eqn:Hfiles.
  2:{ destruct e; discriminate. }
  destruct (count_files fs files (LineCounter_init settings))
    as [[u|e] self'] eqn:Hcount.
  2:{ destruct e; discriminate. }
  cbn [fst]. intros [= <-].
  assert (Hall : Forall (countable fs) files).
  { apply (count_files_returns_countable fs files (LineCounter_init settings)).
    rewrite Hcount. now destruct u. }
  rewrite (count_files_countable fs files _ Hall) in Hcount.
  assert (Hself : self' = mkLineCounter settings (map (record_of fs) files))
    by (cbn in Hcount; congruence).
  subst self'. cbn [_fileDatas].
  pose proof (get_py_files_directory_admitted (LineCounter_init settings)
                (Directory entries) (path settings) files
                (ex_intro _ entries eq_refl) Hfiles) as Hadm.
  rewrite Forall_forall in *. intros R HR. apply in_map_iff in HR.
  destruct HR as (f & <- & Hf). rewrite record_of_file. now apply Hadm.
Qed.

Lemma cli_count_lines_reports_admitted_files_witness :
  let settings := default_settings project in
  let fs := mkFileSystem (fun _ => true) (fun _ => Returns (py "x = 1")) in
  let lineCounter :=
    mkLineCounter settings
      [ mkFileData (project / py "a.py")%path 1 0 1 0;
        mkFileData ((project / py "pkg") / py "c.py")%path 1 0 1 0 ] in
  fst (cli_count_lines fs (Directory project_entries) settings)
  = Returns (Some lineCounter)
  /\ Forall (fun R => admitted (LineCounter_init settings) R.(file))
       lineCounter.(_fileDatas).
Proof.
  split; [reflexivity|].
  apply (cli_count_lines_reports_admitted_files
           (mkFileSystem (fun _ => true) (fun _ => Returns (py "x = 1")))
           project_entries (default_settings project)).
  reflexivity.
Defined.
